(** * ef1p SVG engine: lines, connectors and label alignment

    A shallow embedding of [code/svg/elements/line.ts] (the second document
    of [src/pages/email/graphics/message-envelope.ts]) together with the
    parts of [utility/point.ts], [utility/box.ts], [utility/marker.ts],
    [elements/circle.ts], [elements/ellipse.ts] and [elements/text.ts]
    that it calls.

    JavaScript numbers are modelled as real numbers: the geometry is
    exact, and the binary64 effects (NaN, infinities, rounding of the
    arithmetic itself) are outside the model.  A thrown exception is a
    value [Err] of the result type. *)

From Stdlib Require Import Reals Lra Psatz List String Bool Arith Lia ZArith.
From Stdlib Require Floats.
Import ListNotations.

Open Scope R_scope.

(** ** Results of fallible computations *)

Inductive Error : Type :=
| DomainError (message : string).

Inductive Result (A : Type) : Type :=
| Ok (value : A)
| Err (error : Error).

Arguments Ok {A} value.
Arguments Err {A} error.

Definition bind {A B : Type} (r : Result A) (k : A -> Result B) : Result B :=
  match r with
  | Ok a => k a
  | Err e => Err e
  end.

Notation "x <- r ;; k" := (bind r (fun x => k))
  (at level 61, r at next level, right associativity).

Definition isErr {A : Type} (r : Result A) : bool :=
  match r with
  | Ok _ => false
  | Err _ => true
  end.

(** An optional argument or an optional property with its default. *)
Definition withDefault {A : Type} (d : A) (o : option A) : A :=
  match o with
  | Some a => a
  | None => d
  end.

(** An optional property of an object: the key is absent, or it is present
    with a value, which may be [undefined]. *)
Inductive Optional (A : Type) : Type :=
| Absent
| Present (value : option A).

Arguments Absent {A}.
Arguments Present {A} value.

(** Reading the property, [object.key]: [undefined] when the key is absent. *)
Definition read {A : Type} (property : Optional A) : option A :=
  match property with
  | Absent => None
  | Present value => value
  end.

Definition mapOptional {A B : Type} (f : A -> B) (property : Optional A) : Optional B :=
  match property with
  | Absent => Absent
  | Present value => Present (option_map f value)
  end.

(** ** Points ([utility/point.ts]) *)

Record Point : Type := P { x : R; y : R }.

Inductive LineSide : Type := SideLeft | SideRight.

Module Point.

(** Modelled from the spec: the vector algebra of [Point] (point.ts is
    not among the sources): addition, subtraction, scalar scaling,
    component-wise absolute value and Euclidean magnitude. *)
Definition add (a b : Point) : Point := P (x a + x b) (y a + y b).
Definition subtract (a b : Point) : Point := P (x a - x b) (y a - y b).
Definition multiply (a : Point) (factor : R) : Point :=
  P (x a * factor) (y a * factor).
Definition absolute (a : Point) : Point := P (Rabs (x a)) (Rabs (y a)).
Definition length (a : Point) : R := sqrt (x a * x a + y a * y a).

(** Modelled from the spec: [rotate(vector, side)] (point.ts is not among
    the sources) returns the vector rotated by 90 degrees in the given
    rotational sense.  The y axis of the drawing points down, so the left
    of the direction (1, 0) is (0, -1). *)
Definition rotate (a : Point) (side : LineSide) : Point :=
  match side with
  | SideLeft => P (y a) (- x a)
  | SideRight => P (- y a) (x a)
  end.

(** Modelled from the spec: [normalize(vector, targetLength)] (point.ts is
    not among the sources) returns a vector of exactly [targetLength]
    pointing in the same direction and fails with a domain error if the
    input vector has zero length. *)
Definition normalize (a : Point) (targetLength : R) : Result Point :=
  if Req_dec_T (length a) 0
  then Err (DomainError "cannot normalize a vector of length zero")
  else Ok (multiply a (targetLength / length a)).

(** Modelled from the spec: [round3] (point.ts is not among the sources)
    rounds each coordinate to three decimal places, to the nearest
    thousandth as [Math.round] does. *)
Definition round3Number (v : R) : R := IZR (Int_part (v * 1000 + / 2)) / 1000.
Definition round3 (a : Point) : Point := P (round3Number (x a)) (round3Number (y a)).

End Point.

(** ** Alignment ([elements/text.ts]) *)

Inductive HorizontalAlignment : Type := HLeft | HCenter | HRight.
Inductive VerticalAlignment : Type := VTop | VCenter | VBottom.

Record Alignment : Type := {
  horizontalAlignment : HorizontalAlignment;
  verticalAlignment : VerticalAlignment
}.

(** ** Boxes ([utility/box.ts]) *)

Inductive BoxSide : Type := SideTop | SideRightEdge | SideBottom | SideLeftEdge.

Record Box : Type := { position : Point; size : Point }.

Module Box.

Definition center (b : Box) : Point :=
  P (x (position b) + x (size b) / 2) (y (position b) + y (size b) / 2).

(** The unit vector that leaves the box through the given side (the y
    axis points down). *)
Definition outward (side : BoxSide) : Point :=
  match side with
  | SideTop => P 0 (-1)
  | SideRightEdge => P 1 0
  | SideBottom => P 0 1
  | SideLeftEdge => P (-1) 0
  end.

(** The middle of the given edge. *)
Definition anchor (b : Box) (side : BoxSide) : Point :=
  match side with
  | SideTop => P (x (center b)) (y (position b))
  | SideRightEdge => P (x (position b) + x (size b)) (y (center b))
  | SideBottom => P (x (center b)) (y (position b) + y (size b))
  | SideLeftEdge => P (x (position b)) (y (center b))
  end.

(** Modelled from the spec: [pointAt(side, offset)] (box.ts is not among
    the sources) returns the point on the requested edge, moved
    perpendicular to that edge by [offset], so that a connector ends just
    outside the shape.  The point on the edge is its middle. *)
Definition pointAt (b : Box) (side : BoxSide) (offset : R) : Point :=
  Point.add (anchor b side) (Point.multiply (outward side) offset).

End Box.

(** Modelled from the spec: [BoundingBox(p1, p2)] (box.ts is not among the
    sources) is the smallest axis-aligned box containing both points,
    whatever their order. *)
Definition BoundingBox (p1 p2 : Point) : Box :=
  {| position := P (Rmin (x p1) (x p2)) (Rmin (y p1) (y p2));
     size := P (Rabs (x p2 - x p1)) (Rabs (y p2 - y p1)) |}.

(** ** Visual elements ([elements/element.ts]) *)

(** The palette of [src/styles/_svg.scss]. *)
Inductive Color : Type :=
| blue | purple | pink | red | orange | yellow | green | brown | gray
| textColor | background.

(** The capability every shape offers to the connector logic. *)
Class VisualElement (E : Type) : Type := {
  boundingBox : E -> Box
}.

(** Modelled from the spec: [center()] of [VisualElement] (element.ts is not
    among the sources) is the centre of the element's bounding box. *)
Definition center {E : Type} `{VisualElement E} (e : E) : Point :=
  Box.center (boundingBox e).

(** ** Markers ([utility/marker.ts]) *)

Inductive Marker : Type := MarkerStart | MarkerEnd.

Definition Marker_eqb (a b : Marker) : bool :=
  match a, b with
  | MarkerStart, MarkerStart | MarkerEnd, MarkerEnd => true
  | _, _ => false
  end.

(** The type [Marker | Marker[]] of the [marker] property. *)
Inductive MarkerChoice : Type :=
| OneMarker (m : Marker)
| Markers (ms : list Marker).

Definition hasMarker (marker : MarkerChoice) (side : Marker) : bool :=
  match marker with
  | OneMarker m => Marker_eqb m side
  | Markers ms => existsb (Marker_eqb side) ms
  end.

(** Modelled from the spec: [markerOffset(marker, side)] (marker.ts is not
    among the sources) is the marker's physical length if a marker is
    present at that end of the line, and nothing otherwise.  The length is
    a constant of marker.ts, taken as a parameter. *)
Definition markerOffset (markerLength : R) (marker : MarkerChoice) (side : Marker) : R :=
  if hasMarker marker side then markerLength else 0.

(** An object spread [{ key: base, ...props }]: a key that [props] has
    overrides the one written before it, also when its value is
    [undefined]. *)
Definition spread {A : Type} (base over : Optional A) : Optional A :=
  match over with
  | Present value => Present value
  | Absent => base
  end.

(** ** Texts ([elements/text.ts]) *)

(** The type [string | string[]] of the [text] property. *)
Inductive TextContent : Type :=
| OneLine (s : string)
| Lines (ls : list string).

Module Text.

(** [Omit<TextProps, 'position' | 'text'>]: the optional properties. *)
Record Rest : Type := {
  horizontalAlignment : Optional HorizontalAlignment;
  verticalAlignment : Optional VerticalAlignment;
  color : Optional Color;
  classes : Optional string
}.

Record Props : Type := {
  position : Point;
  text : TextContent;
  rest : Rest
}.

(** The empty object [{}]. *)
Definition noRest : Rest :=
  {| horizontalAlignment := Absent; verticalAlignment := Absent;
     color := Absent; classes := Absent |}.

End Text.

(** ** [determineAlignment] ([elements/line.ts]) *)

Definition determineAlignment (offset : Point) : Alignment :=
  let absoluteOffset := Point.absolute offset in
  let h :=
    if Rgt_dec (y absoluteOffset) (x absoluteOffset * 4) then HCenter
    else if Rgt_dec (x offset) 0 then HLeft
    else HRight in
  let v :=
    if Rgt_dec (x absoluteOffset) (y absoluteOffset * 4) then VCenter
    else if Rgt_dec (y offset) 0 then VTop
    else VBottom in
  {| horizontalAlignment := h; verticalAlignment := v |}.

(** ** Lines ([elements/line.ts]) *)

(** A piece of the markup: literal text, or a number that a template
    string interpolates. *)
Inductive Piece : Type :=
| Str (s : string)
| Num (v : R).

Definition quote : string := String (Ascii.ascii_of_nat 34) EmptyString.

Module Line.

(** [Omit<LineProps, 'start' | 'end'>]: the optional properties. *)
Record Rest : Type := {
  marker : Optional MarkerChoice;
  color : Optional Color;
  classes : Optional string
}.

Record Props : Type := {
  start : Point;
  end_ : Point;
  rest : Rest
}.

(** The empty object [{}]. *)
Definition noRest : Rest :=
  {| marker := Absent; color := Absent; classes := Absent |}.

Definition vector (this : Props) : Point :=
  Point.subtract (end_ this) (start this).

Definition length (this : Props) : R :=
  Point.length (vector this).

Definition _boundingBox (this : Props) : Box :=
  BoundingBox (start this) (end_ this).

#[global] Instance visualElement : VisualElement Props :=
  {| boundingBox := _boundingBox |}.

Section Encode.

(** The parts of the markup that element.ts and marker.ts produce. *)
Variable attributes : Props -> string.
Variable children : Props -> string -> string.
Variable markerAttributes : (unit -> R) -> option MarkerChoice -> option Color -> string.

Definition _encode (this : Props) (prefix : string) : list Piece :=
  let start := Point.round3 (start this) in
  let end_ := Point.round3 (end_ this) in
  [ Str prefix; Str "<line"; Str (attributes this);
    Str " x1="; Str quote; Num (x start); Str quote;
    Str " y1="; Str quote; Num (y start); Str quote;
    Str " x2="; Str quote; Num (x end_); Str quote;
    Str " y2="; Str quote; Num (y end_); Str quote;
    Str (markerAttributes (fun _ => length this)
           (read (marker (rest this))) (read (color (rest this))));
    Str ">"; Str (children this prefix); Str "</line>"; Str (String (Ascii.ascii_of_nat 10) EmptyString) ].

End Encode.

Section Labels.

(** A constant of constants.ts. *)
Variable lineToTextDistance : R.

Definition text (this : Props) (text : TextContent)
    (side : option LineSide) (props : option Text.Rest) : Result Text.Props :=
  let side := withDefault SideLeft side in
  let props := withDefault Text.noRest props in
  offset <- Point.normalize (Point.rotate (vector this) side) lineToTextDistance ;;
  let position := Point.add (center this) offset in
  let color := read (color (rest this)) in
  let alignment := determineAlignment offset in
  Ok {| Text.position := position;
        Text.text := text;
        Text.rest :=
          {| Text.horizontalAlignment :=
               spread (Present (Some (horizontalAlignment alignment)))
                      (Text.horizontalAlignment props);
             Text.verticalAlignment :=
               spread (Present (Some (verticalAlignment alignment)))
                      (Text.verticalAlignment props);
             Text.color := spread (Present color) (Text.color props);
             Text.classes := Text.classes props |} |}.

End Labels.

Definition shorten (this : Props) (startOffset : R) (endOffset : option R) : Result Props :=
  let endOffset := withDefault startOffset endOffset in
  let vector := vector this in
  startShift <- Point.normalize vector startOffset ;;
  let start := Point.add (start this) startShift in
  endShift <- Point.normalize vector endOffset ;;
  let end_ := Point.subtract (end_ this) endShift in
  Ok {| start := start; end_ := end_; rest := rest this |}.

End Line.

(** ** Rectangles, circles and ellipses *)

Module Rectangle.

Record Props : Type := { position : Point; size : Point }.

#[global] Instance visualElement : VisualElement Props :=
  {| boundingBox := fun this => Build_Box (position this) (size this) |}.

End Rectangle.

Module Circle.

Record Props : Type := { center : Point; radius : R }.

(** Modelled from the spec: [pointTowards(target, offset)] (circle.ts is not
    among the sources) is the point on the circle's boundary lying on the
    straight line from the centre toward [target]; the spec's words give
    the second argument no part in it. *)
Definition pointTowards (this : Props) (target : Point) (offset : R) : Result Point :=
  shift <- Point.normalize (Point.subtract target (center this)) (radius this) ;;
  Ok (Point.add (center this) shift).

End Circle.

Module Ellipse.

Record Props : Type := { center : Point; radius : Point }.

(** The factor that scales a direction from the centre onto the ellipse. *)
Definition onBoundary (this : Props) (direction : Point) : R :=
  / sqrt (Rsqr (x direction / x (radius this)) + Rsqr (y direction / y (radius this))).

(** Modelled from the spec: [pointTowards(target, offset)] (ellipse.ts is
    not among the sources) is the point on the ellipse's boundary lying on
    the straight line from the centre toward [target]; the spec's words
    give the second argument no part in it. *)
Definition pointTowards (this : Props) (target : Point) (offset : R) : Result Point :=
  unit <- Point.normalize (Point.subtract target (center this)) 1 ;;
  Ok (Point.add (center this) (Point.multiply unit (onBoundary this unit))).

End Ellipse.

(** The type [Circle | Ellipse]. *)
Inductive Curve : Type :=
| ACircle (c : Circle.Props)
| AnEllipse (e : Ellipse.Props).

Module Curve.

Definition center (this : Curve) : Point :=
  match this with
  | ACircle c => Circle.center c
  | AnEllipse e => Ellipse.center e
  end.

Definition pointTowards (this : Curve) (target : Point) (offset : R) : Result Point :=
  match this with
  | ACircle c => Circle.pointTowards c target offset
  | AnEllipse e => Ellipse.pointTowards e target offset
  end.

End Curve.

(** ** Connectors ([elements/line.ts]) *)

Section Connectors.

(** The physical length of a marker, a constant of marker.ts. *)
Variable markerLength : R.

Definition ConnectionLine {E1 E2 : Type} `{VisualElement E1} `{VisualElement E2}
    (startElement : E1) (startSide : BoxSide)
    (endElement : E2) (endSide : BoxSide)
    (props : option Line.Rest) : Line.Props :=
  let props := withDefault Line.noRest props in
  let marker := withDefault (OneMarker MarkerEnd) (read (Line.marker props)) in
  let start := Box.pointAt (boundingBox startElement) startSide
                 (markerOffset markerLength marker MarkerStart) in
  let end_ := Box.pointAt (boundingBox endElement) endSide
                (markerOffset markerLength marker MarkerEnd) in
  {| Line.start := start; Line.end_ := end_;
     Line.rest := {| Line.marker := spread (Present (Some marker)) (Line.marker props);
                     Line.color := Line.color props;
                     Line.classes := Line.classes props |} |}.

Definition DiagonalLine (startElement endElement : Curve)
    (props : option Line.Rest) : Result Line.Props :=
  let props := withDefault Line.noRest props in
  let marker := withDefault (OneMarker MarkerEnd) (read (Line.marker props)) in
  start <- Curve.pointTowards startElement (Curve.center endElement)
             (markerOffset markerLength marker MarkerStart) ;;
  end_ <- Curve.pointTowards endElement (Curve.center startElement)
            (markerOffset markerLength marker MarkerEnd) ;;
  Ok {| Line.start := start; Line.end_ := end_;
        Line.rest := {| Line.marker := spread (Present (Some marker)) (Line.marker props);
                        Line.color := Line.color props;
                        Line.classes := Line.classes props |} |}.

End Connectors.

(** ** Element instances and their identity *)

(** Elements are objects: [new Line(...)] and [new Text(...)] create an
    instance with an identity of its own, and a method receives the
    instance it is called on.  The store holds the instances created so
    far; a reference is the position of an instance in it. *)
Module Heap.

Inductive Element : Type :=
| LineElement (props : Line.Props)
| TextElement (props : Text.Props).

Definition Ref : Type := nat.
Definition Store : Type := list Element.

(** A computation on the store: its outcome and the store it leaves,
    also when it throws. *)
Definition M (A : Type) : Type := Store -> Result A * Store.

Definition ret {A : Type} (a : A) : M A := fun s => (Ok a, s).

Definition bindM {A B : Type} (m : M A) (k : A -> M B) : M B :=
  fun s =>
    match m s with
    | (Ok a, s') => k a s'
    | (Err e, s') => (Err e, s')
    end.

Definition lift {A : Type} (r : Result A) : M A := fun s => (r, s).

Definition new (e : Element) : M Ref :=
  fun s => (Ok (List.length s), s ++ [e]).

(** [this.props] of a line. *)
Definition lineProps (this : Ref) : M Line.Props :=
  fun s =>
    match nth_error s this with
    | Some (LineElement props) => (Ok props, s)
    | _ => (Err (DomainError "not a line"), s)
    end.

Definition shorten (this : Ref) (startOffset : R) (endOffset : option R) : M Ref :=
  bindM (lineProps this) (fun props =>
  bindM (lift (Line.shorten props startOffset endOffset)) (fun shortened =>
  new (LineElement shortened))).

Definition text (lineToTextDistance : R) (this : Ref) (text : TextContent)
    (side : option LineSide) (props : option Text.Rest) : M Ref :=
  bindM (lineProps this) (fun lineProps =>
  bindM (lift (Line.text lineToTextDistance lineProps text side props)) (fun textProps =>
  new (TextElement textProps))).

End Heap.

(** ** Text layout estimation ([elements/text.ts]) *)

Section TextMetrics.

(** Constants of constants.ts and text.ts: the width of a character in the
    fixed-pitch estimate, the height of a line and the margin. *)
Variable characterWidth : R.
Variable lineHeight : R.
Variable textMargin : Point.

Definition longestLine (lines : list string) : nat :=
  fold_right Nat.max 0%nat (map String.length lines).

(** Modelled from the spec: [estimateTextSizeWithMargin(lines)] (text.ts is
    not among the sources) returns a size from the longest line's estimated
    width (each character as wide as the next) and the number of lines
    times a fixed line height, inflated by a constant margin on all sides. *)
Definition estimateTextSizeWithMargin (lines : list string) : Point :=
  Point.add
    (P (INR (longestLine lines) * characterWidth)
       (INR (List.length lines) * lineHeight))
    (Point.multiply textMargin 2).

End TextMetrics.

(** ** Vocabulary of the statements *)

(** The unit vector from the start of a line to its end. *)
Definition direction (l : Line.Props) : Point :=
  Point.multiply (Line.vector l) (/ Line.length l).

(** The middle of a line. *)
Definition midpoint (l : Line.Props) : Point :=
  P ((x (Line.start l) + x (Line.end_ l)) / 2) ((y (Line.start l) + y (Line.end_ l)) / 2).

Definition dot (a b : Point) : R := x a * x b + y a * y b.

(** [new Line({ start, end })]. *)
Definition plainLine (start end_ : Point) : Line.Props :=
  {| Line.start := start; Line.end_ := end_; Line.rest := Line.noRest |}.

(** The offset of a label from the middle of its line: the unit direction
    turned to the given side and stretched to the distance. *)
Definition labelOffset (l : Line.Props) (side : LineSide) (distance : R) : Point :=
  Point.multiply (Point.rotate (direction l) side) distance.

(** The side that faces the given one. *)
Definition opposite (side : BoxSide) : BoxSide :=
  match side with
  | SideTop => SideBottom
  | SideRightEdge => SideLeftEdge
  | SideBottom => SideTop
  | SideLeftEdge => SideRightEdge
  end.

(** The unit vector from one point towards another. *)
Definition unitTowards (source target : Point) : Point :=
  Point.multiply (Point.subtract target source)
    (/ Point.length (Point.subtract target source)).

(** The point where the straight line from the centre of a curve towards
    [target] crosses the curve. *)
Definition boundaryTowards (c : Curve) (target : Point) : Point :=
  match c with
  | ACircle c =>
      Point.add (Circle.center c)
        (Point.multiply (unitTowards (Circle.center c) target) (Circle.radius c))
  | AnEllipse e =>
      Point.add (Ellipse.center e)
        (Point.multiply (unitTowards (Ellipse.center e) target)
           (Ellipse.onBoundary e (unitTowards (Ellipse.center e) target)))
  end.

(** The point lies on the circumference of the circle, or on the ellipse. *)
Definition onCurve (c : Curve) (p : Point) : Prop :=
  match c with
  | ACircle c => Point.length (Point.subtract p (Circle.center c)) = Circle.radius c
  | AnEllipse e =>
      Rsqr ((x p - x (Ellipse.center e)) / x (Ellipse.radius e))
      + Rsqr ((y p - y (Ellipse.center e)) / y (Ellipse.radius e)) = 1
  end.

Definition positiveRadius (c : Curve) : Prop :=
  match c with
  | ACircle c => 0 < Circle.radius c
  | AnEllipse e => 0 < x (Ellipse.radius e) /\ 0 < y (Ellipse.radius e)
  end.

(** [{ marker: ['start', 'end'] }]. *)
Definition bothMarkers : Line.Rest :=
  {| Line.marker := Present (Some (Markers [MarkerStart; MarkerEnd]));
     Line.color := Absent; Line.classes := Absent |}.

(** [new Circle({ center, radius })] as one of the two curves. *)
Definition circleAt (center : Point) (radius : R) : Curve :=
  ACircle {| Circle.center := center; Circle.radius := radius |}.

(** The marker that [ConnectionLine] and [DiagonalLine] use for [props]. *)
Definition markerOf (props : option Line.Rest) : MarkerChoice :=
  withDefault (OneMarker MarkerEnd) (read (Line.marker (withDefault Line.noRest props))).

(** The numbers that a piece of markup interpolates, in order. *)
Fixpoint numbers (pieces : list Piece) : list R :=
  match pieces with
  | [] => []
  | Num v :: rest => v :: numbers rest
  | Str _ :: rest => numbers rest
  end.

(** The alignment of a label on the other side of its anchor. *)
Definition flipHorizontal (h : HorizontalAlignment) : HorizontalAlignment :=
  match h with
  | HLeft => HRight
  | HCenter => HCenter
  | HRight => HLeft
  end.

Definition flipVertical (v : VerticalAlignment) : VerticalAlignment :=
  match v with
  | VTop => VBottom
  | VCenter => VCenter
  | VBottom => VTop
  end.

Definition flipAlignment (a : Alignment) : Alignment :=
  {| horizontalAlignment := flipHorizontal (horizontalAlignment a);
     verticalAlignment := flipVertical (verticalAlignment a) |}.

(** ** The envelope diagram ([pages/email/graphics/message-envelope.ts]) *)

Module Envelope.

Section Layout.

(** A line of text, plain or styled ([TextLine] of text.ts). *)
Variable TextLine : Type.

(** Constants of constants.ts. *)
Variable strokeWidth : R.
Variables textMargin doubleTextMargin : Point.

(** [calculateTextHeight] of text.ts. *)
Variable calculateTextHeight : list TextLine -> R.

(** [estimateTextSizeWithMargin(['Mail client', 'of', 'alice@example.org'])]. *)
Variable size : Point.

(** [bold('Message')], [bold('Envelope')] and the exported [messageLines]. *)
Variables messageTitle envelopeTitle : TextLine.
Variable defaultMessage : list TextLine.

(** [Line.connectBoxes] of line.ts. *)
Variable connectBoxes :
  Rectangle.Props -> BoxSide -> Rectangle.Props -> BoxSide -> option Line.Rest -> Line.Props.

Definition gap : R := 40.
Definition messageWidth : R := 240.
Definition envelopeMargin : R := 2 * strokeWidth.
Definition alignment : Alignment :=
  {| horizontalAlignment := HLeft; verticalAlignment := VTop |}.

(** What [printSVG] is given: a rectangle with its style, the text that
    [Rectangle.text] builds for a rectangle, or a line. *)
Inductive Element : Type :=
| RectangleElement (box : Rectangle.Props)
    (cornerRadius : option R) (color : option Color) (classes : option string)
| RectangleText (box : Rectangle.Props) (lines : list TextLine)
    (alignment : option Alignment) (margin : option Point)
| LineElement (line : Line.Props).

(** [printEnvelope], up to the call of [printSVG]: the elements in the
    order in which they are handed over. *)
Definition printEnvelope (left right envelope : list TextLine)
    (message : option (list TextLine)) : list Element :=
  let message := withDefault defaultMessage message in
  let leftBox := {| Rectangle.position := P 0 (- y size / 2); Rectangle.size := size |} in
  let elements := [RectangleElement leftBox None None None;
                   RectangleText leftBox left None None] in
  let messageLines := messageTitle :: message in
  let messageSize :=
    Point.add (P messageWidth (calculateTextHeight messageLines)) doubleTextMargin in
  let envelopeLines := envelopeTitle :: envelope in
  let envelopeSize :=
    P (x messageSize + 2 * envelopeMargin)
      (y messageSize + calculateTextHeight envelopeLines + y doubleTextMargin
       + 3 * envelopeMargin) in
  let envelopeBox :=
    {| Rectangle.position := P (x size + gap) (- y envelopeSize / 2);
       Rectangle.size := envelopeSize |} in
  let elements :=
    elements ++ [RectangleElement envelopeBox (Some 0) (Some green) (Some "angular"%string);
                 RectangleText envelopeBox envelopeLines (Some alignment)
                   (Some (Point.add textMargin (P envelopeMargin envelopeMargin)))] in
  let messageBox :=
    {| Rectangle.position :=
         P (x size + gap + envelopeMargin)
           (y envelopeSize / 2 - envelopeMargin - y messageSize);
       Rectangle.size := messageSize |} in
  let elements :=
    elements ++ [RectangleElement messageBox (Some 0) (Some blue) (Some "angular"%string);
                 RectangleText messageBox messageLines (Some alignment) None] in
  let rightBox :=
    {| Rectangle.position := P (x size + 2 * gap + x envelopeSize) (- y size / 2);
       Rectangle.size := size |} in
  let elements :=
    elements ++ [RectangleElement rightBox None None None;
                 RectangleText rightBox right None None] in
  let elements :=
    LineElement (connectBoxes leftBox SideRightEdge envelopeBox SideLeftEdge
                   (Some {| Line.marker := Present (Some (Markers []));
                            Line.color := Present (Some green);
                            Line.classes := Absent |}))
    :: elements in
  let elements :=
    LineElement (connectBoxes envelopeBox SideRightEdge rightBox SideLeftEdge
                   (Some {| Line.marker := Absent;
                            Line.color := Present (Some green);
                            Line.classes := Absent |}))
    :: elements in
  elements.

(** The rectangles among the elements, in their order. *)
Fixpoint rectangles (elements : list Element) : list Rectangle.Props :=
  match elements with
  | [] => []
  | RectangleElement box _ _ _ :: rest => box :: rectangles rest
  | _ :: rest => rectangles rest
  end.

End Layout.

(** The edges of a rectangle. *)
Definition leftEdge (r : Rectangle.Props) : R := x (Rectangle.position r).
Definition rightEdge (r : Rectangle.Props) : R :=
  x (Rectangle.position r) + x (Rectangle.size r).
Definition topEdge (r : Rectangle.Props) : R := y (Rectangle.position r).
Definition bottomEdge (r : Rectangle.Props) : R :=
  y (Rectangle.position r) + y (Rectangle.size r).

End Envelope.

(** ** Values of entries ([code/react/entry.ts]) *)

Module Entry.

(** A value of type [any]: a primitive, or a reference to an object. *)
Inductive Value : Type :=
| Undefined
| Null
| Boolean (b : bool)
| Number (n : PrimFloat.float)
| StringValue (s : string)
| Reference (r : nat).

Inductive Object : Type :=
| ArrayObject (items : list Value)
| OtherObject.

(** The objects that exist; a reference is the position of its object. *)
Definition Heap : Type := list Object.

(** [a === b]: numbers as IEEE 754 has it, objects by identity. *)
Definition strictEquals (a b : Value) : bool :=
  match a, b with
  | Undefined, Undefined => true
  | Null, Null => true
  | Boolean p, Boolean q => Bool.eqb p q
  | Number m, Number n => PrimFloat.eqb m n
  | StringValue s, StringValue t => String.eqb s t
  | Reference r, Reference s => Nat.eqb r s
  | _, _ => false
  end.

(** [Array.isArray(v)], with the items of the array. *)
Definition asArray (h : Heap) (v : Value) : option (list Value) :=
  match v with
  | Reference r =>
      match nth_error h r with
      | Some (ArrayObject items) => Some items
      | _ => None
      end
  | _ => None
  end.

(** The loop of [equalValues] from the index [i], with [remaining] indices
    to go; [a[i]] beyond the end of an array is [undefined]. *)
Fixpoint sameItems (a b : list Value) (i remaining : nat) : bool :=
  match remaining with
  | O => true
  | S k =>
      if negb (strictEquals (nth i a Undefined) (nth i b Undefined)) then false
      else sameItems a b (S i) k
  end.

Definition equalValues (h : Heap) (a b : Value) : bool :=
  if strictEquals a b then true
  else
    match asArray h a, asArray h b with
    | Some xs, Some ys =>
        if negb (Nat.eqb (List.length xs) (List.length ys)) then false
        else sameItems xs ys 0 (List.length xs)
    | _, _ => false
    end.

End Entry.

(** ** Pruning the links ([signal-relaying-packet-response.svg.ts]) *)

Module Relaying.

(** [array.splice(start, 1)]: the array without the element at [start],
    unchanged when there is none. *)
Definition splice1 {A : Type} (start : nat) (array : list A) : list A :=
  firstn start array ++ skipn (S start) array.

(** The four [links.splice] statements, in their order. *)
Definition pruneLinks {A : Type} (links : list A) : list A :=
  let links := splice1 7 links in
  let links := splice1 4 links in
  let links := splice1 2 links in
  let links := splice1 0 links in
  links.

End Relaying.

(** The elements of a list whose positions are not among the given ones. *)
Definition withoutPositions {A : Type} (positions : list nat) (l : list A) : list A :=
  map snd
    (filter (fun entry => negb (existsb (Nat.eqb (fst entry)) positions))
       (combine (seq 0 (List.length l)) l)).

(** The value is the number NaN. *)
Definition isNaN (v : Entry.Value) : bool :=
  match v with
  | Entry.Number n => PrimFloat.is_nan n
  | _ => false
  end.

(** Item by item, the two lists are strictly equal. *)
Definition itemwise (xs ys : list Entry.Value) : Prop :=
  Forall2 (fun u v => Entry.strictEquals u v = true) xs ys.

(** Both numbers are zeros, of whatever sign. *)
Definition bothZero (a b : SpecFloat.spec_float) : Prop :=
  exists s1 s2, a = SpecFloat.S754_zero s1 /\ b = SpecFloat.S754_zero s2.

(** * Theorems *)

(** ** Label alignment *)

Lemma horizontal_center (offset : Point) :
  Rabs (y offset) > 4 * Rabs (x offset) ->
  horizontalAlignment (determineAlignment offset) = HCenter.
Proof.
  intros H. unfold determineAlignment. cbn.
  destruct (Rgt_dec (Rabs (y offset)) (Rabs (x offset) * 4)) as [_ | N]; [reflexivity | lra].
Qed.

Lemma horizontal_sign (offset : Point) :
  ~ Rabs (y offset) > 4 * Rabs (x offset) ->
  horizontalAlignment (determineAlignment offset)
  = if Rgt_dec (x offset) 0 then HLeft else HRight.
Proof.
  intros H. unfold determineAlignment. cbn.
  destruct (Rgt_dec (Rabs (y offset)) (Rabs (x offset) * 4)) as [C | _]; [lra | reflexivity].
Qed.

Lemma vertical_center (offset : Point) :
  Rabs (x offset) > 4 * Rabs (y offset) ->
  verticalAlignment (determineAlignment offset) = VCenter.
Proof.
  intros H. unfold determineAlignment. cbn.
  destruct (Rgt_dec (Rabs (x offset)) (Rabs (y offset) * 4)) as [_ | N]; [reflexivity | lra].
Qed.

Lemma vertical_sign (offset : Point) :
  ~ Rabs (x offset) > 4 * Rabs (y offset) ->
  verticalAlignment (determineAlignment offset)
  = if Rgt_dec (y offset) 0 then VTop else VBottom.
Proof.
  intros H. unfold determineAlignment. cbn.
  destruct (Rgt_dec (Rabs (x offset)) (Rabs (y offset) * 4)) as [C | _]; [lra | reflexivity].
Qed.

(** C1: for every offset, the horizontal alignment is "center" whenever
    |y| > 4|x|; otherwise it is not "center" and follows the sign of x
    (positive gives "left", negative gives "right").  The vertical alignment
    is "center" whenever |x| > 4|y|; otherwise it is not "center" and follows
    the sign of y (positive gives "top", negative gives "bottom"). *)
Theorem determineAlignment_rule (offset : Point) :
  let a := determineAlignment offset in
  (Rabs (y offset) > 4 * Rabs (x offset) -> horizontalAlignment a = HCenter)
  /\ (~ Rabs (y offset) > 4 * Rabs (x offset) ->
      horizontalAlignment a <> HCenter
      /\ (x offset > 0 -> horizontalAlignment a = HLeft)
      /\ (x offset < 0 -> horizontalAlignment a = HRight))
  /\ (Rabs (x offset) > 4 * Rabs (y offset) -> verticalAlignment a = VCenter)
  /\ (~ Rabs (x offset) > 4 * Rabs (y offset) ->
      verticalAlignment a <> VCenter
      /\ (y offset > 0 -> verticalAlignment a = VTop)
      /\ (y offset < 0 -> verticalAlignment a = VBottom)).
Proof.
  cbv zeta. repeat split.
  - apply horizontal_center.
  - rewrite (horizontal_sign _ H). destruct (Rgt_dec (x offset) 0); discriminate.
  - intros Hx. rewrite (horizontal_sign _ H).
    destruct (Rgt_dec (x offset) 0); [reflexivity | lra].
  - intros Hx. rewrite (horizontal_sign _ H).
    destruct (Rgt_dec (x offset) 0); [lra | reflexivity].
  - apply vertical_center.
  - rewrite (vertical_sign _ H). destruct (Rgt_dec (y offset) 0); discriminate.
  - intros Hy. rewrite (vertical_sign _ H).
    destruct (Rgt_dec (y offset) 0); [reflexivity | lra].
  - intros Hy. rewrite (vertical_sign _ H).
    destruct (Rgt_dec (y offset) 0); [lra | reflexivity].
Qed.

(** C10: on the boundary of the dead zone the alignment is not centred.
    When |y| = 4|x| the horizontal alignment follows the sign branch ("left"
    for x > 0, "right" otherwise); when |x| = 4|y| the vertical alignment
    follows the sign branch ("top" for y > 0, "bottom" otherwise); and the
    zero offset gives "right" and "bottom". *)
Theorem determineAlignment_boundary :
  (forall offset : Point,
      Rabs (y offset) = 4 * Rabs (x offset) ->
      horizontalAlignment (determineAlignment offset)
      = (if Rgt_dec (x offset) 0 then HLeft else HRight)
      /\ horizontalAlignment (determineAlignment offset) <> HCenter)
  /\ (forall offset : Point,
      Rabs (x offset) = 4 * Rabs (y offset) ->
      verticalAlignment (determineAlignment offset)
      = (if Rgt_dec (y offset) 0 then VTop else VBottom)
      /\ verticalAlignment (determineAlignment offset) <> VCenter)
  /\ determineAlignment (P 0 0)
     = {| horizontalAlignment := HRight; verticalAlignment := VBottom |}.
Proof.
  split; [| split].
  - intros offset H.
    assert (N : ~ Rabs (y offset) > 4 * Rabs (x offset)) by lra.
    rewrite (horizontal_sign _ N).
    split; [reflexivity | destruct (Rgt_dec (x offset) 0); discriminate].
  - intros offset H.
    assert (N : ~ Rabs (x offset) > 4 * Rabs (y offset)) by lra.
    rewrite (vertical_sign _ N).
    split; [reflexivity | destruct (Rgt_dec (y offset) 0); discriminate].
  - unfold determineAlignment. cbn. rewrite Rabs_R0.
    destruct (Rgt_dec 0 (0 * 4)) as [C | _]; [lra |].
    destruct (Rgt_dec 0 0) as [C | _]; [lra | reflexivity].
Qed.

Example alignment_above :
  determineAlignment (P 0 (- (12)))
  = {| horizontalAlignment := HCenter; verticalAlignment := VBottom |}.
Proof.
  unfold determineAlignment; cbn. rewrite Rabs_R0, Rabs_Ropp, Rabs_right by lra.
  destruct (Rgt_dec 12 (0 * 4)); [| lra].
  destruct (Rgt_dec 0 (12 * 4)); [lra |].
  destruct (Rgt_dec (- (12)) 0); [lra | reflexivity].
Qed.

Example alignment_diagonal :
  determineAlignment (P 3 (- (12)))
  = {| horizontalAlignment := HLeft; verticalAlignment := VBottom |}.
Proof.
  unfold determineAlignment; cbn. rewrite Rabs_Ropp, !Rabs_right by lra.
  destruct (Rgt_dec 12 (3 * 4)); [lra |].
  destruct (Rgt_dec 3 0); [| lra].
  destruct (Rgt_dec 3 (12 * 4)); [lra |].
  destruct (Rgt_dec (- (12)) 0); [lra | reflexivity].
Qed.

(** ** Vectors *)

Lemma Point_eq (a b : Point) : x a = x b -> y a = y b -> a = b.
Proof. destruct a, b; cbn; intros -> ->; reflexivity. Qed.

Lemma length_nonneg (v : Point) : 0 <= Point.length v.
Proof. apply sqrt_pos. Qed.

Lemma length_sqr (v : Point) :
  Point.length v * Point.length v = x v * x v + y v * y v.
Proof. unfold Point.length. apply sqrt_sqrt. nra. Qed.

Lemma length_zero (v : Point) : Point.length v = 0 <-> v = P 0 0.
Proof.
  split.
  - intros H. pose proof (length_sqr v) as S. rewrite H in S.
    apply Point_eq; cbn; nra.
  - intros ->. unfold Point.length; cbn.
    replace (0 * 0 + 0 * 0) with 0 by ring. apply sqrt_0.
Qed.

Lemma length_horizontal (a : R) : 0 <= a -> Point.length (P a 0) = a.
Proof.
  intros H. unfold Point.length; cbn.
  replace (a * a + 0 * 0) with (a * a) by ring. now apply sqrt_square.
Qed.

Lemma length_multiply (v : Point) (k : R) :
  Point.length (Point.multiply v k) = Rabs k * Point.length v.
Proof.
  unfold Point.length, Point.multiply; cbn.
  replace (x v * k * (x v * k) + y v * k * (y v * k))
    with (Rsqr k * (x v * x v + y v * y v)) by (unfold Rsqr; ring).
  rewrite sqrt_mult_alt by apply Rle_0_sqr.
  now rewrite sqrt_Rsqr_abs.
Qed.

Lemma vector_zero (l : Line.Props) :
  Point.length (Line.vector l) = 0 <-> Line.start l = Line.end_ l.
Proof.
  rewrite length_zero. unfold Line.vector, Point.subtract. split.
  - intros H. injection H as Hx Hy. apply Point_eq; lra.
  - intros ->. f_equal; ring.
Qed.

Lemma normalize_ok (v : Point) (t : R) :
  Point.length v <> 0 ->
  Point.normalize v t = Ok (Point.multiply v (t / Point.length v)).
Proof.
  intros H. unfold Point.normalize.
  destruct (Req_dec_T (Point.length v) 0); [contradiction | reflexivity].
Qed.

Lemma normalize_fails (v : Point) (t : R) :
  Point.length v = 0 -> isErr (Point.normalize v t) = true.
Proof.
  intros H. unfold Point.normalize.
  destruct (Req_dec_T (Point.length v) 0); [reflexivity | contradiction].
Qed.

Lemma normalize_inv (v : Point) (t : R) (p : Point) :
  Point.normalize v t = Ok p ->
  Point.length v <> 0 /\ p = Point.multiply v (t / Point.length v).
Proof.
  unfold Point.normalize.
  destruct (Req_dec_T (Point.length v) 0); [discriminate |].
  intros [= <-]. now split.
Qed.

(** The normalized vector has the length that was asked for. *)
Lemma normalize_length (v : Point) (t : R) (p : Point) :
  0 <= t -> Point.normalize v t = Ok p -> Point.length p = t.
Proof.
  intros Ht H. apply normalize_inv in H as [Hv ->].
  rewrite length_multiply. pose proof (length_nonneg v).
  rewrite Rabs_right.
  - field. exact Hv.
  - apply Rle_ge. apply Rmult_le_pos; [exact Ht |].
    left. apply Rinv_0_lt_compat. lra.
Qed.

Lemma rotate_length (v : Point) (side : LineSide) :
  Point.length (Point.rotate v side) = Point.length v.
Proof.
  unfold Point.length. destruct side; cbn; f_equal; ring.
Qed.

Lemma rotate_perpendicular (v : Point) (side : LineSide) :
  dot v (Point.rotate v side) = 0.
Proof. unfold dot. destruct side; cbn; ring. Qed.

Lemma rotate_left_right (v : Point) :
  Point.rotate (Point.rotate v SideLeft) SideRight = v.
Proof. destruct v as [a b]. cbn. f_equal; ring. Qed.

Lemma direction_unit (l : Line.Props) :
  Line.start l <> Line.end_ l -> Point.length (direction l) = 1.
Proof.
  intros H. unfold direction. rewrite length_multiply.
  assert (N : Line.length l <> 0) by (unfold Line.length; now rewrite vector_zero).
  pose proof (length_nonneg (Line.vector l)) as Pos. fold (Line.length l) in *.
  rewrite Rabs_right.
  - now field.
  - apply Rle_ge. left. apply Rinv_0_lt_compat. lra.
Qed.

(** ** Shortening a line *)

Lemma shorten_ok (l : Line.Props) (a : R) (b : option R) :
  Line.start l <> Line.end_ l ->
  Line.shorten l a b
  = Ok {| Line.start :=
            Point.add (Line.start l) (Point.multiply (direction l) a);
          Line.end_ :=
            Point.subtract (Line.end_ l)
              (Point.multiply (direction l) (withDefault a b));
          Line.rest := Line.rest l |}.
Proof.
  intros H.
  assert (N : Point.length (Line.vector l) <> 0) by now rewrite vector_zero.
  unfold Line.shorten. rewrite !normalize_ok by exact N. cbn.
  unfold direction, Line.length. do 2 f_equal.
  - f_equal. apply Point_eq; cbn; now field.
  - f_equal. apply Point_eq; cbn; now field.
Qed.



(** ** Degenerate geometry *)

Lemma shorten_degenerate (l : Line.Props) (a : R) (b : option R) :
  Line.start l = Line.end_ l -> isErr (Line.shorten l a b) = true.
Proof.
  intros H. apply vector_zero in H. unfold Line.shorten.
  unfold Point.normalize at 1.
  destruct (Req_dec_T (Point.length (Line.vector l)) 0); [reflexivity | contradiction].
Qed.

Lemma text_degenerate (d : R) (l : Line.Props) (t : TextContent)
    (side : option LineSide) (props : option Text.Rest) :
  Line.start l = Line.end_ l -> isErr (Line.text d l t side props) = true.
Proof.
  intros H. apply vector_zero in H. unfold Line.text.
  unfold Point.normalize. rewrite rotate_length.
  destruct (Req_dec_T (Point.length (Line.vector l)) 0); [reflexivity | contradiction].
Qed.

(** C6: [normalize] of a vector of length zero is a domain error, whatever
    the target length, and a result it does return comes from a vector of
    non-zero length and is that vector scaled; so [shorten] and [text] of a
    line whose start equals its end fail and return no coordinates. *)
Theorem degenerate_geometry_fails :
  (forall t, exists message, Point.normalize (P 0 0) t = Err (DomainError message))
  /\ (forall v t, Point.length v = 0 -> isErr (Point.normalize v t) = true)
  /\ (forall v t p, Point.normalize v t = Ok p ->
        Point.length v <> 0 /\ p = Point.multiply v (t / Point.length v))
  /\ (forall l startOffset endOffset,
        Line.start l = Line.end_ l ->
        isErr (Line.shorten l startOffset endOffset) = true)
  /\ (forall lineToTextDistance l t side props,
        Line.start l = Line.end_ l ->
        isErr (Line.text lineToTextDistance l t side props) = true).
Proof.
  repeat split.
  - intros t. unfold Point.normalize.
    destruct (Req_dec_T (Point.length (P 0 0)) 0) as [_ | N].
    + eexists; reflexivity.
    + exfalso. apply N. now apply length_zero.
  - apply normalize_fails.
  - now apply normalize_inv in H.
  - now apply normalize_inv in H.
  - apply shorten_degenerate.
  - apply text_degenerate.
Qed.

Example shorten_of_a_point :
  isErr (Line.shorten (plainLine (P 5 5) (P 5 5)) 10 None) = true
  /\ isErr (Line.text 12 (plainLine (P 5 5) (P 5 5)) (OneLine "SMTP") None None) = true.
Proof.
  split; [apply shorten_degenerate | apply text_degenerate]; reflexivity.
Qed.

(** ** Labels beside a line *)

Lemma center_midpoint (l : Line.Props) : center l = midpoint l.
Proof.
  unfold center, midpoint, Box.center; cbn.
  apply Point_eq; cbn; unfold Rmin, Rabs;
    repeat match goal with
           | |- context [Rle_dec ?a ?b] => destruct (Rle_dec a b)
           | |- context [Rcase_abs ?a] => destruct (Rcase_abs a)
           end; lra.
Qed.

Lemma text_ok (d : R) (l : Line.Props) (t : TextContent)
    (side : option LineSide) (props : option Text.Rest) :
  Line.start l <> Line.end_ l ->
  let offset := labelOffset l (withDefault SideLeft side) d in
  let given := withDefault Text.noRest props in
  Line.text d l t side props
  = Ok {| Text.position := Point.add (midpoint l) offset;
          Text.text := t;
          Text.rest :=
            {| Text.horizontalAlignment :=
                 spread (Present (Some (horizontalAlignment (determineAlignment offset))))
                        (Text.horizontalAlignment given);
               Text.verticalAlignment :=
                 spread (Present (Some (verticalAlignment (determineAlignment offset))))
                        (Text.verticalAlignment given);
               Text.color :=
                 spread (Present (read (Line.color (Line.rest l)))) (Text.color given);
               Text.classes := Text.classes given |} |}.
Proof.
  intros H offset given.
  assert (N : Point.length (Line.vector l) <> 0) by now rewrite vector_zero.
  unfold Line.text.
  rewrite normalize_ok by now rewrite rotate_length.
  cbn [bind]. rewrite center_midpoint, rotate_length.
  assert (E : Point.multiply (Point.rotate (Line.vector l) (withDefault SideLeft side))
                (d / Point.length (Line.vector l)) = offset).
  { unfold offset, labelOffset, direction, Line.length.
    destruct (withDefault SideLeft side); apply Point_eq; cbn; now field. }
  rewrite E. reflexivity.
Qed.

Lemma labelOffset_length (l : Line.Props) (side : LineSide) (d : R) :
  Line.start l <> Line.end_ l -> Point.length (labelOffset l side d) = Rabs d.
Proof.
  intros H. unfold labelOffset.
  rewrite length_multiply, rotate_length, direction_unit by exact H. ring.
Qed.

Lemma labelOffset_perpendicular (l : Line.Props) (side : LineSide) (d : R) :
  dot (Line.vector l) (labelOffset l side d) = 0.
Proof.
  unfold dot, labelOffset, direction. destruct side; cbn; ring.
Qed.

(** C5, as amended: for a line with distinct endpoints, [text] returns a
    text at the midpoint plus the offset, which is perpendicular to the
    line, on the given side ("left" when none is given) and of the length
    [lineToTextDistance]; each alignment is the one [determineAlignment]
    gives for that offset unless [props] has the key, and the color is the
    line's own unless [props] has the key [color]; a key that [props] has
    wins with its value, also when that value is [undefined]. *)
Theorem text_placement (lineToTextDistance : R) (l : Line.Props) (t : TextContent)
    (side : option LineSide) (props : option Text.Rest) :
  Line.start l <> Line.end_ l ->
  let offset := labelOffset l (withDefault SideLeft side) lineToTextDistance in
  let given := withDefault Text.noRest props in
  exists label,
    Line.text lineToTextDistance l t side props = Ok label
    /\ Text.position label = Point.add (midpoint l) offset
    /\ dot (Line.vector l) offset = 0
    /\ Point.length offset = Rabs lineToTextDistance
    /\ Text.text label = t
    /\ Text.horizontalAlignment (Text.rest label)
       = match Text.horizontalAlignment given with
         | Present value => Present value
         | Absent => Present (Some (horizontalAlignment (determineAlignment offset)))
         end
    /\ Text.verticalAlignment (Text.rest label)
       = match Text.verticalAlignment given with
         | Present value => Present value
         | Absent => Present (Some (verticalAlignment (determineAlignment offset)))
         end
    /\ Text.color (Text.rest label)
       = match Text.color given with
         | Present value => Present value
         | Absent => Present (read (Line.color (Line.rest l)))
         end
    /\ Text.classes (Text.rest label) = Text.classes given.
Proof.
  intros H offset given. eexists. split; [now apply text_ok |]. cbn.
  fold offset given. repeat split.
  - apply labelOffset_perpendicular.
  - now apply labelOffset_length.
Qed.

Lemma text_placement_witness :
  exists label,
    Line.text 12 (plainLine (P 0 0) (P 100 0)) (OneLine "SMTP") None None = Ok label
    /\ Text.position label
       = Point.add (midpoint (plainLine (P 0 0) (P 100 0)))
           (labelOffset (plainLine (P 0 0) (P 100 0)) SideLeft 12)
    /\ dot (Line.vector (plainLine (P 0 0) (P 100 0)))
           (labelOffset (plainLine (P 0 0) (P 100 0)) SideLeft 12) = 0
    /\ Point.length (labelOffset (plainLine (P 0 0) (P 100 0)) SideLeft 12) = Rabs 12
    /\ Text.text label = OneLine "SMTP"
    /\ Text.horizontalAlignment (Text.rest label)
       = Present (Some (horizontalAlignment
                          (determineAlignment
                             (labelOffset (plainLine (P 0 0) (P 100 0)) SideLeft 12))))
    /\ Text.verticalAlignment (Text.rest label)
       = Present (Some (verticalAlignment
                          (determineAlignment
                             (labelOffset (plainLine (P 0 0) (P 100 0)) SideLeft 12))))
    /\ Text.color (Text.rest label) = Present None
    /\ Text.classes (Text.rest label) = Absent.
Proof.
  apply (text_placement 12 (plainLine (P 0 0) (P 100 0)) (OneLine "SMTP") None None).
  cbn. intros [= E]. lra.
Defined.

(** Whatever the distance, the label of a horizontal line is not aligned
    "left" by [determineAlignment]: its offset has no horizontal part. *)
Lemma horizontal_line_label (d : R) :
  horizontalAlignment
    (determineAlignment (labelOffset (plainLine (P 0 0) (P 100 0)) SideLeft d)) <> HLeft.
Proof.
  unfold determineAlignment, labelOffset, direction; cbn.
  replace ((0 - 0) * / Line.length (plainLine (P 0 0) (P 100 0)) * d) with 0 by ring.
  destruct (Rgt_dec _ _); [discriminate |].
  destruct (Rgt_dec 0 0); [lra | discriminate].
Qed.

(** C5, the claim as stated fails: [props] with a horizontal alignment of
    its own overrides the one [determineAlignment] gives.  The label of the
    line from (0,0) to (100,0) with [{ horizontalAlignment: 'left' }] is
    aligned "left", which is not what [determineAlignment] gives for its
    offset. *)
Lemma text_alignment_overridden :
  exists label,
    Line.text 12 (plainLine (P 0 0) (P 100 0)) (OneLine "SMTP") None
      (Some {| Text.horizontalAlignment := Present (Some HLeft);
               Text.verticalAlignment := Absent;
               Text.color := Absent;
               Text.classes := Absent |}) = Ok label
    /\ Text.horizontalAlignment (Text.rest label) = Present (Some HLeft)
    /\ Text.horizontalAlignment (Text.rest label)
       <> Present (Some (horizontalAlignment
                  (determineAlignment (labelOffset (plainLine (P 0 0) (P 100 0)) SideLeft 12)))).
Proof.
  eexists. split; [| split].
  - apply text_ok. cbn. intros [= E]. lra.
  - reflexivity.
  - cbn. intros [= E]. symmetry in E. now apply horizontal_line_label in E.
Qed.

(** A key of [props] whose value is [undefined] wins as well: the label of
    a green line, asked for with [{ color: undefined }], has no color. *)
Example text_color_undefined :
  exists label,
    Line.text 12
      {| Line.start := P 0 0; Line.end_ := P 100 0;
         Line.rest := {| Line.marker := Absent; Line.color := Present (Some green);
                         Line.classes := Absent |} |}
      (OneLine "SMTP") None
      (Some {| Text.horizontalAlignment := Absent;
               Text.verticalAlignment := Absent;
               Text.color := Present None;
               Text.classes := Absent |}) = Ok label
    /\ Text.color (Text.rest label) = Present None.
Proof.
  eexists. split.
  - apply text_ok. cbn. intros [= E]. lra.
  - reflexivity.
Qed.

(** ** Connectors between boxes *)

Lemma outward_opposite (side : BoxSide) :
  Box.outward (opposite side) = Point.multiply (Box.outward side) (-1).
Proof. destruct side; apply Point_eq; cbn; ring. Qed.

Lemma outward_length (side : BoxSide) (k : R) :
  Point.length (Point.multiply (Box.outward side) k) = Rabs k.
Proof.
  unfold Point.length. rewrite <- sqrt_Rsqr_abs. f_equal.
  unfold Rsqr. destruct side; cbn; ring.
Qed.

Section Facing.

Context {E1 E2 : Type} `{VisualElement E1} `{VisualElement E2}.
Variables (markerLength : R) (startElement : E1) (endElement : E2).
Variables (side : BoxSide) (props : Line.Rest) (marker : MarkerChoice).

Hypothesis marker_given : read (Line.marker props) = Some marker.
Hypothesis marker_at_start : hasMarker marker MarkerStart = true.
Hypothesis marker_at_end : hasMarker marker MarkerEnd = true.

Let connection : Line.Props :=
  ConnectionLine markerLength startElement side endElement (opposite side) (Some props).

Lemma connection_start :
  Line.start connection
  = Point.add (Box.anchor (boundingBox startElement) side)
      (Point.multiply (Box.outward side) markerLength).
Proof.
  unfold connection, ConnectionLine; cbn. rewrite marker_given; cbn.
  unfold markerOffset. now rewrite marker_at_start.
Qed.

Lemma connection_end :
  Line.end_ connection
  = Point.add (Box.anchor (boundingBox endElement) (opposite side))
      (Point.multiply (Box.outward (opposite side)) markerLength).
Proof.
  unfold connection, ConnectionLine; cbn. rewrite marker_given; cbn.
  unfold markerOffset. now rewrite marker_at_end.
Qed.

Lemma connection_length (L : R) :
  Box.anchor (boundingBox endElement) (opposite side)
  = Point.add (Box.anchor (boundingBox startElement) side)
      (Point.multiply (Box.outward side) L) ->
  Line.length connection = Rabs (L - 2 * markerLength).
Proof.
  intros A. unfold Line.length, Line.vector.
  rewrite connection_start, connection_end, A, outward_opposite.
  rewrite <- (outward_length side). f_equal.
  apply Point_eq; cbn; ring.
Qed.

End Facing.

(** C2, as amended: when the chosen sides face each other, the middle of
    the end side lies [L] beyond the middle of the start side straight out
    of the start side, and [props] puts a marker of length [m] at each end,
    each endpoint of the connection is the middle of its side moved out of
    its box by [m], and the length of the line is |L - 2m|, which is
    L - 2m whenever 2m <= L. *)
Theorem ConnectionLine_length {E1 E2 : Type} `{VisualElement E1} `{VisualElement E2}
    (m L : R) (startElement : E1) (endElement : E2)
    (side : BoxSide) (props : Line.Rest) (marker : MarkerChoice) :
  read (Line.marker props) = Some marker ->
  hasMarker marker MarkerStart = true ->
  hasMarker marker MarkerEnd = true ->
  Box.anchor (boundingBox endElement) (opposite side)
  = Point.add (Box.anchor (boundingBox startElement) side)
      (Point.multiply (Box.outward side) L) ->
  let l := ConnectionLine m startElement side endElement (opposite side) (Some props) in
  Line.start l
  = Box.pointAt (boundingBox startElement) side m
  /\ Line.end_ l
     = Box.pointAt (boundingBox endElement) (opposite side) m
  /\ Line.length l = Rabs (L - 2 * m)
  /\ (2 * m <= L -> Line.length l = L - 2 * m).
Proof.
  intros G S E A l. unfold l.
  pose proof (connection_length m startElement endElement side props marker G S E L A) as Len.
  repeat split.
  - now apply connection_start with (marker := marker).
  - now apply connection_end with (marker := marker).
  - exact Len.
  - intros Hle. rewrite Len. apply Rabs_right. lra.
Qed.

Lemma ConnectionLine_length_witness :
  let startBox := {| Rectangle.position := P 0 0; Rectangle.size := P 10 10 |} in
  let endBox := {| Rectangle.position := P 30 0; Rectangle.size := P 10 10 |} in
  let l := ConnectionLine 4 startBox SideRightEdge endBox SideLeftEdge (Some bothMarkers) in
  Line.start l = Box.pointAt (boundingBox startBox) SideRightEdge 4
  /\ Line.end_ l = Box.pointAt (boundingBox endBox) SideLeftEdge 4
  /\ Line.length l = Rabs (20 - 2 * 4)
  /\ (2 * 4 <= 20 -> Line.length l = 20 - 2 * 4).
Proof.
  cbv zeta.
  apply (ConnectionLine_length 4 20
           {| Rectangle.position := P 0 0; Rectangle.size := P 10 10 |}
           {| Rectangle.position := P 30 0; Rectangle.size := P 10 10 |}
           SideRightEdge bothMarkers (Markers [MarkerStart; MarkerEnd])).
  - reflexivity.
  - reflexivity.
  - reflexivity.
  - apply Point_eq; cbn; lra.
Defined.

(** C2, the claim as stated fails: two boxes 6 apart with a marker of
    length 4 at each end are connected by a line of length 2, which is not
    6 - 2 * 4. *)
Lemma ConnectionLine_close_boxes :
  let startBox := {| Rectangle.position := P 0 0; Rectangle.size := P 10 10 |} in
  let endBox := {| Rectangle.position := P 16 0; Rectangle.size := P 10 10 |} in
  let l := ConnectionLine 4 startBox SideRightEdge endBox SideLeftEdge (Some bothMarkers) in
  Box.anchor (boundingBox startBox) SideRightEdge = P 10 5
  /\ Box.anchor (boundingBox endBox) SideLeftEdge = P 16 5
  /\ Line.start l = P 14 5
  /\ Line.end_ l = P 12 5
  /\ Line.length l = 2
  /\ Line.length l <> 6 - 2 * 4.
Proof.
  cbv zeta.
  assert (Len : Line.length
                  (ConnectionLine 4
                     {| Rectangle.position := P 0 0; Rectangle.size := P 10 10 |}
                     SideRightEdge
                     {| Rectangle.position := P 16 0; Rectangle.size := P 10 10 |}
                     SideLeftEdge (Some bothMarkers)) = 2).
  { change SideLeftEdge with (opposite SideRightEdge).
    rewrite (connection_length 4 _ _ SideRightEdge bothMarkers
               (Markers [MarkerStart; MarkerEnd]) eq_refl eq_refl eq_refl 6).
    - replace (6 - 2 * 4) with (- (2)) by ring. rewrite Rabs_Ropp. apply Rabs_right. lra.
    - apply Point_eq; cbn; lra. }
  repeat split.
  - apply Point_eq; cbn; lra.
  - apply Point_eq; cbn; lra.
  - apply Point_eq; cbn; lra.
  - apply Point_eq; cbn; lra.
  - exact Len.
  - rewrite Len. lra.
Qed.

(** With [{ marker: undefined }] the endpoints are computed for the
    default marker, at the end only, and the line stores the marker
    [undefined] that the spread copies. *)
Example ConnectionLine_marker_undefined :
  let startBox := {| Rectangle.position := P 0 0; Rectangle.size := P 10 10 |} in
  let endBox := {| Rectangle.position := P 30 0; Rectangle.size := P 10 10 |} in
  let l := ConnectionLine 4 startBox SideRightEdge endBox SideLeftEdge
             (Some {| Line.marker := Present None; Line.color := Absent;
                      Line.classes := Absent |}) in
  Line.start l = P 10 5
  /\ Line.end_ l = P 26 5
  /\ Line.marker (Line.rest l) = Present None.
Proof.
  cbv zeta. repeat split; apply Point_eq; cbn; lra.
Qed.

(** ** Connectors between circles and ellipses *)

Lemma subtract_zero (a b : Point) : Point.length (Point.subtract a b) = 0 <-> a = b.
Proof.
  rewrite length_zero. unfold Point.subtract. split.
  - intros [= Hx Hy]. apply Point_eq; lra.
  - intros ->. f_equal; ring.
Qed.

Lemma unitTowards_length (a b : Point) : a <> b -> Point.length (unitTowards a b) = 1.
Proof.
  intros N. unfold unitTowards. rewrite length_multiply.
  assert (Z : Point.length (Point.subtract b a) <> 0).
  { rewrite subtract_zero. congruence. }
  pose proof (length_nonneg (Point.subtract b a)).
  rewrite Rabs_right.
  - now field.
  - apply Rle_ge. left. apply Rinv_0_lt_compat. lra.
Qed.

Lemma pointTowards_circle (c : Circle.Props) (target : Point) (offset : R) :
  Circle.center c <> target ->
  Circle.pointTowards c target offset = Ok (boundaryTowards (ACircle c) target).
Proof.
  intros N.
  assert (Z : Point.length (Point.subtract target (Circle.center c)) <> 0).
  { rewrite subtract_zero. congruence. }
  unfold Circle.pointTowards. rewrite normalize_ok by exact Z. cbn [bind].
  f_equal. unfold boundaryTowards, unitTowards. apply Point_eq; cbn; now field.
Qed.

Lemma pointTowards_ellipse (e : Ellipse.Props) (target : Point) (offset : R) :
  Ellipse.center e <> target ->
  Ellipse.pointTowards e target offset = Ok (boundaryTowards (AnEllipse e) target).
Proof.
  intros N.
  assert (Z : Point.length (Point.subtract target (Ellipse.center e)) <> 0).
  { rewrite subtract_zero. congruence. }
  unfold Ellipse.pointTowards. rewrite normalize_ok by exact Z. cbn [bind].
  replace (Point.multiply (Point.subtract target (Ellipse.center e))
             (1 / Point.length (Point.subtract target (Ellipse.center e))))
    with (unitTowards (Ellipse.center e) target).
  - reflexivity.
  - unfold unitTowards. apply Point_eq; cbn; now field.
Qed.

Lemma pointTowards_ok (c : Curve) (target : Point) (offset : R) :
  Curve.center c <> target ->
  Curve.pointTowards c target offset = Ok (boundaryTowards c target).
Proof.
  destruct c; cbn [Curve.center Curve.pointTowards]; intros N.
  - now apply pointTowards_circle.
  - now apply pointTowards_ellipse.
Qed.

Lemma boundary_on_circle (c : Circle.Props) (target : Point) :
  0 < Circle.radius c -> Circle.center c <> target ->
  onCurve (ACircle c) (boundaryTowards (ACircle c) target).
Proof.
  intros Pos N. cbn [onCurve boundaryTowards].
  replace (Point.subtract _ (Circle.center c))
    with (Point.multiply (unitTowards (Circle.center c) target) (Circle.radius c))
    by (apply Point_eq; cbn; ring).
  rewrite length_multiply, unitTowards_length by exact N.
  rewrite Rabs_right; lra.
Qed.

(** A direction other than (0,0), scaled by [onBoundary], ends on the
    ellipse around the origin. *)
Lemma scaled_onto_ellipse (e : Ellipse.Props) (d : Point) :
  0 < x (Ellipse.radius e) -> 0 < y (Ellipse.radius e) -> d <> P 0 0 ->
  0 < Ellipse.onBoundary e d
  /\ Rsqr (x d * Ellipse.onBoundary e d / x (Ellipse.radius e))
     + Rsqr (y d * Ellipse.onBoundary e d / y (Ellipse.radius e)) = 1.
Proof.
  intros Px Py Hd. unfold Ellipse.onBoundary.
  set (s := Rsqr (x d / x (Ellipse.radius e)) + Rsqr (y d / y (Ellipse.radius e))).
  assert (Hs : 0 < s).
  { assert (Hx : 0 <= Rsqr (x d / x (Ellipse.radius e))) by apply Rle_0_sqr.
    assert (Hy : 0 <= Rsqr (y d / y (Ellipse.radius e))) by apply Rle_0_sqr.
    destruct (Req_dec (x d) 0) as [X0 | X0].
    - destruct (Req_dec (y d) 0) as [Y0 | Y0].
      + exfalso. apply Hd. apply Point_eq; assumption.
      + assert (0 < Rsqr (y d / y (Ellipse.radius e))).
        { apply Rlt_0_sqr. unfold Rdiv. apply Rmult_integral_contrapositive_currified;
            [exact Y0 | apply Rinv_neq_0_compat; lra]. }
        unfold s. lra.
    - assert (0 < Rsqr (x d / x (Ellipse.radius e))).
      { apply Rlt_0_sqr. unfold Rdiv. apply Rmult_integral_contrapositive_currified;
          [exact X0 | apply Rinv_neq_0_compat; lra]. }
      unfold s. lra. }
  assert (Root : sqrt s * sqrt s = s) by (apply sqrt_sqrt; lra).
  assert (RootPos : 0 < sqrt s) by now apply sqrt_lt_R0.
  split; [now apply Rinv_0_lt_compat |].
  transitivity (s / (sqrt s * sqrt s)).
  - unfold s, Rsqr. field. repeat split; try lra.
    fold (Rsqr (x d / x (Ellipse.radius e))) (Rsqr (y d / y (Ellipse.radius e))).
    fold s. lra.
  - rewrite Root. field. lra.
Qed.

Lemma unitTowards_nonzero (a b : Point) : a <> b -> unitTowards a b <> P 0 0.
Proof.
  intros N C. apply length_zero in C. rewrite unitTowards_length in C by exact N. lra.
Qed.

Lemma boundary_on_ellipse (e : Ellipse.Props) (target : Point) :
  0 < x (Ellipse.radius e) -> 0 < y (Ellipse.radius e) ->
  Ellipse.center e <> target ->
  onCurve (AnEllipse e) (boundaryTowards (AnEllipse e) target).
Proof.
  intros Px Py N. cbn [onCurve boundaryTowards].
  destruct (scaled_onto_ellipse e (unitTowards (Ellipse.center e) target) Px Py
              (unitTowards_nonzero _ _ N)) as [_ On].
  rewrite <- On. cbn [x y Point.add Point.multiply]. f_equal; f_equal; field; lra.
Qed.

Lemma boundary_on_curve (c : Curve) (target : Point) :
  positiveRadius c -> Curve.center c <> target -> onCurve c (boundaryTowards c target).
Proof.
  destruct c; cbn [positiveRadius Curve.center].
  - apply boundary_on_circle.
  - intros [Px Py]. now apply boundary_on_ellipse.
Qed.

(** The crossing point lies on the ray from the centre towards the target. *)
Lemma boundary_on_ray (c : Curve) (target : Point) :
  positiveRadius c -> Curve.center c <> target ->
  exists k, 0 < k
    /\ boundaryTowards c target
       = Point.add (Curve.center c) (Point.multiply (unitTowards (Curve.center c) target) k).
Proof.
  intros Pos N. destruct c as [c | e]; cbn [positiveRadius Curve.center boundaryTowards] in *.
  - exists (Circle.radius c). now split.
  - exists (Ellipse.onBoundary e (unitTowards (Ellipse.center e) target)).
    split; [| reflexivity].
    now apply scaled_onto_ellipse; try apply unitTowards_nonzero.
Qed.

Lemma length_horizontal_abs (a : R) : Point.length (P a 0) = Rabs a.
Proof.
  unfold Point.length; cbn. rewrite <- sqrt_Rsqr_abs. f_equal. unfold Rsqr. ring.
Qed.

Lemma DiagonalLine_ok (m : R) (a b : Curve) (props : option Line.Rest) :
  Curve.center a <> Curve.center b ->
  DiagonalLine m a b props
  = Ok {| Line.start := boundaryTowards a (Curve.center b);
          Line.end_ := boundaryTowards b (Curve.center a);
          Line.rest :=
            {| Line.marker :=
                 spread (Present (Some (markerOf props)))
                   (Line.marker (withDefault Line.noRest props));
               Line.color := Line.color (withDefault Line.noRest props);
               Line.classes := Line.classes (withDefault Line.noRest props) |} |}.
Proof.
  intros N. unfold DiagonalLine.
  rewrite !pointTowards_ok by congruence. reflexivity.
Qed.

(** The two circles of radius 16 centred at (0,0) and (200,0), whatever
    the markers and their length. *)
Lemma DiagonalLine_two_circles (m : R) (props : option Line.Rest) :
  exists l,
    DiagonalLine m (circleAt (P 0 0) 16) (circleAt (P 200 0) 16) props = Ok l
    /\ Line.start l = P 16 0
    /\ Line.end_ l = P 184 0.
Proof.
  eexists. split.
  - apply DiagonalLine_ok. cbn. intros [= E]. lra.
  - cbn [Line.start Line.end_ circleAt Curve.center boundaryTowards
         Circle.center Circle.radius].
    unfold unitTowards.
    replace (Point.subtract (P 200 0) (P 0 0)) with (P 200 0)
      by (apply Point_eq; cbn; ring).
    replace (Point.subtract (P 0 0) (P 200 0)) with (P (- (200)) 0)
      by (apply Point_eq; cbn; ring).
    rewrite !length_horizontal_abs, Rabs_Ropp, Rabs_right by lra.
    split; apply Point_eq; cbn; field.
Qed.

(** C3: for the circles of radius 16 at (0,0) and (200,0), [DiagonalLine]
    with the default properties returns the line from exactly (16,0) to
    exactly (184,0); and for any two circles or ellipses with positive
    radii and distinct centres, and any properties, each endpoint of the
    line lies on its shape's boundary, on the ray from that shape's centre
    towards the centre of the other shape. *)
Theorem DiagonalLine_endpoints (markerLength : R) (a b : Curve) (props : option Line.Rest) :
  positiveRadius a -> positiveRadius b -> Curve.center a <> Curve.center b ->
  (exists l,
      DiagonalLine markerLength a b props = Ok l
      /\ onCurve a (Line.start l)
      /\ onCurve b (Line.end_ l)
      /\ (exists k, 0 < k
            /\ Line.start l
               = Point.add (Curve.center a)
                   (Point.multiply (unitTowards (Curve.center a) (Curve.center b)) k))
      /\ (exists k, 0 < k
            /\ Line.end_ l
               = Point.add (Curve.center b)
                   (Point.multiply (unitTowards (Curve.center b) (Curve.center a)) k)))
  /\ (exists l,
        DiagonalLine markerLength (circleAt (P 0 0) 16) (circleAt (P 200 0) 16) None = Ok l
        /\ Line.start l = P 16 0 /\ Line.end_ l = P 184 0).
Proof.
  intros Pa Pb N.
  assert (N' : Curve.center b <> Curve.center a) by congruence.
  split.
  - eexists. split; [now apply DiagonalLine_ok |].
    cbn [Line.start Line.end_]. repeat split.
    + now apply boundary_on_curve.
    + now apply boundary_on_curve.
    + now apply boundary_on_ray.
    + now apply boundary_on_ray.
  - apply DiagonalLine_two_circles.
Qed.

Lemma DiagonalLine_endpoints_witness :
  (exists l,
      DiagonalLine 4 (circleAt (P 0 0) 16)
        (AnEllipse {| Ellipse.center := P 200 0; Ellipse.radius := P 30 10 |}) None = Ok l
      /\ onCurve (circleAt (P 0 0) 16) (Line.start l)
      /\ onCurve (AnEllipse {| Ellipse.center := P 200 0; Ellipse.radius := P 30 10 |})
           (Line.end_ l)
      /\ (exists k, 0 < k
            /\ Line.start l
               = Point.add (P 0 0) (Point.multiply (unitTowards (P 0 0) (P 200 0)) k))
      /\ (exists k, 0 < k
            /\ Line.end_ l
               = Point.add (P 200 0) (Point.multiply (unitTowards (P 200 0) (P 0 0)) k)))
  /\ (exists l,
        DiagonalLine 4 (circleAt (P 0 0) 16) (circleAt (P 200 0) 16) None = Ok l
        /\ Line.start l = P 16 0 /\ Line.end_ l = P 184 0).
Proof.
  refine (DiagonalLine_endpoints 4 (circleAt (P 0 0) 16)
            (AnEllipse {| Ellipse.center := P 200 0; Ellipse.radius := P 30 10 |})
            None _ _ _).
  - cbn. lra.
  - cbn. split; lra.
  - cbn. intros [= E]. lra.
Defined.

(** ** Rounding *)

Lemma round3Number_close (v : R) : Rabs (Point.round3Number v - v) <= / 2000.
Proof.
  unfold Point.round3Number.
  destruct (base_Int_part (v * 1000 + / 2)) as [Lo Hi].
  apply Rabs_le. lra.
Qed.

Lemma round3Number_third : Point.round3Number (/ 3) = 333 / 1000.
Proof.
  unfold Point.round3Number. f_equal. f_equal. symmetry.
  apply Int_part_spec. lra.
Qed.

Lemma round3Number_integer (z : Z) : Point.round3Number (IZR z) = IZR z.
Proof.
  unfold Point.round3Number.
  replace (Int_part (IZR z * 1000 + / 2)) with (z * 1000)%Z.
  - rewrite mult_IZR. field.
  - apply Int_part_spec. rewrite mult_IZR. lra.
Qed.

Lemma encode_numbers (attributes : Line.Props -> string)
    (children : Line.Props -> string -> string)
    (markerAttributes : (unit -> R) -> option MarkerChoice -> option Color -> string)
    (this : Line.Props) (prefix : string) :
  numbers (Line._encode attributes children markerAttributes this prefix)
  = [ Point.round3Number (x (Line.start this)); Point.round3Number (y (Line.start this));
      Point.round3Number (x (Line.end_ this)); Point.round3Number (y (Line.end_ this)) ].
Proof. reflexivity. Qed.

Lemma round3Number_two_thirds : Point.round3Number (2 / 3) = 667 / 1000.
Proof.
  unfold Point.round3Number. f_equal. f_equal. symmetry.
  apply Int_part_spec. lra.
Qed.

Lemma round3Number_zero : Point.round3Number 0 = 0.
Proof. exact (round3Number_integer 0). Qed.

Lemma shorten_by_a_third :
  Line.shorten (plainLine (P 0 0) (P 1 0)) (/ 3) None
  = Ok (plainLine (P (/ 3) 0) (P (2 / 3) 0)).
Proof.
  rewrite shorten_ok by (cbn; intros [= E]; lra).
  unfold direction, Line.length, Line.vector; cbn [Line.start Line.end_ Line.rest plainLine].
  replace (Point.subtract (P 1 0) (P 0 0)) with (P 1 0) by (apply Point_eq; cbn; ring).
  rewrite length_horizontal by lra.
  unfold plainLine. do 2 f_equal; apply Point_eq; cbn; field.
Qed.

(** C7: the only rounding is the one of [_encode].  The numbers it
    interpolates are the stored coordinates of the start and of the end,
    each rounded to the nearest thousandth, while the length it hands to
    the markers is the one of the stored points; [vector], [length],
    [shorten], [text], [ConnectionLine] and [DiagonalLine] return the exact
    values.  The line from (0,0) to (1,0) shortened by a third runs from
    (1/3, 0) to (2/3, 0) and is written with 0.333 and 0.667. *)
Theorem rounding_only_in_encode :
  (forall attributes children markerAttributes this prefix,
      numbers (Line._encode attributes children markerAttributes this prefix)
      = [ x (Point.round3 (Line.start this)); y (Point.round3 (Line.start this));
          x (Point.round3 (Line.end_ this)); y (Point.round3 (Line.end_ this)) ]
      /\ In (Str (markerAttributes (fun _ => Line.length this)
                    (read (Line.marker (Line.rest this)))
                    (read (Line.color (Line.rest this)))))
            (Line._encode attributes children markerAttributes this prefix))
  /\ (forall p,
        Rabs (x (Point.round3 p) - x p) <= / 2000
        /\ Rabs (y (Point.round3 p) - y p) <= / 2000
        /\ (exists i j, Point.round3 p = P (IZR i / 1000) (IZR j / 1000)))
  /\ (forall l,
        Line.vector l
        = P (x (Line.end_ l) - x (Line.start l)) (y (Line.end_ l) - y (Line.start l))
        /\ Line.length l * Line.length l
           = Rsqr (x (Line.end_ l) - x (Line.start l))
             + Rsqr (y (Line.end_ l) - y (Line.start l)))
  /\ (forall l startOffset endOffset,
        Line.start l <> Line.end_ l ->
        Line.shorten l startOffset endOffset
        = Ok {| Line.start :=
                  Point.add (Line.start l) (Point.multiply (direction l) startOffset);
                Line.end_ :=
                  Point.subtract (Line.end_ l)
                    (Point.multiply (direction l) (withDefault startOffset endOffset));
                Line.rest := Line.rest l |})
  /\ (forall lineToTextDistance l t side props,
        Line.start l <> Line.end_ l ->
        exists label,
          Line.text lineToTextDistance l t side props = Ok label
          /\ Text.position label
             = Point.add (midpoint l)
                 (labelOffset l (withDefault SideLeft side) lineToTextDistance))
  /\ (forall (E1 E2 : Type) (V1 : VisualElement E1) (V2 : VisualElement E2)
          markerLength (startElement : E1) (endElement : E2) startSide endSide props,
        let l := ConnectionLine markerLength startElement startSide endElement endSide props in
        Line.start l
        = Point.add (Box.anchor (boundingBox startElement) startSide)
            (Point.multiply (Box.outward startSide)
               (markerOffset markerLength (markerOf props) MarkerStart))
        /\ Line.end_ l
           = Point.add (Box.anchor (boundingBox endElement) endSide)
               (Point.multiply (Box.outward endSide)
                  (markerOffset markerLength (markerOf props) MarkerEnd)))
  /\ (forall markerLength a b props,
        Curve.center a <> Curve.center b ->
        exists l,
          DiagonalLine markerLength a b props = Ok l
          /\ Line.start l = boundaryTowards a (Curve.center b)
          /\ Line.end_ l = boundaryTowards b (Curve.center a))
  /\ (Line.shorten (plainLine (P 0 0) (P 1 0)) (/ 3) None
      = Ok (plainLine (P (/ 3) 0) (P (2 / 3) 0))
      /\ forall attributes children markerAttributes prefix,
          numbers (Line._encode attributes children markerAttributes
                     (plainLine (P (/ 3) 0) (P (2 / 3) 0)) prefix)
          = [333 / 1000; 0; 667 / 1000; 0]).
Proof.
  split; [| split; [| split; [| split; [| split; [| split; [| split]]]]]].
  - intros attributes children markerAttributes this prefix. split.
    + reflexivity.
    + cbn. tauto.
  - intros p. cbn [Point.round3 x y]. repeat split.
    + apply round3Number_close.
    + apply round3Number_close.
    + do 2 eexists. unfold Point.round3, Point.round3Number. reflexivity.
  - intros l. split; [reflexivity |].
    unfold Line.length. rewrite length_sqr. reflexivity.
  - intros l startOffset endOffset N. now apply shorten_ok.
  - intros d l t side props N. eexists. split; [now apply text_ok | reflexivity].
  - intros E1 E2 V1 V2 m startElement endElement startSide endSide props. cbv zeta.
    unfold ConnectionLine, markerOf. split; reflexivity.
  - intros m a b props N. eexists. split; [now apply DiagonalLine_ok |].
    split; reflexivity.
  - split; [apply shorten_by_a_third |].
    intros attributes children markerAttributes prefix.
    rewrite encode_numbers. cbn [plainLine Line.start Line.end_ x y].
    now rewrite round3Number_third, round3Number_two_thirds, round3Number_zero.
Qed.

(** ** Instances are never changed *)

Lemma nth_error_extended {A : Type} (s : list A) (e : A) (r : nat) (a : A) :
  nth_error s r = Some a -> nth_error (s ++ [e]) r = Some a.
Proof.
  intros H. rewrite nth_error_app1; [exact H |].
  apply nth_error_Some. congruence.
Qed.

Lemma nth_error_new {A : Type} (s : list A) (e : A) :
  nth_error (s ++ [e]) (List.length s) = Some e.
Proof.
  rewrite nth_error_app2 by apply Nat.le_refl. now rewrite Nat.sub_diag.
Qed.

Lemma nth_error_fresh {A : Type} (s : list A) : nth_error s (List.length s) = None.
Proof. apply nth_error_None. apply Nat.le_refl. Qed.

Lemma shorten_store (this : Heap.Ref) (a : R) (b : option R) (s : Heap.Store) :
  match Heap.shorten this a b s with
  | (Ok r, s') =>
      exists props shortened,
        nth_error s this = Some (Heap.LineElement props)
        /\ Line.shorten props a b = Ok shortened
        /\ r = List.length s
        /\ s' = s ++ [Heap.LineElement shortened]
  | (Err _, s') => s' = s
  end.
Proof.
  unfold Heap.shorten, Heap.bindM, Heap.lineProps, Heap.lift, Heap.new.
  destruct (nth_error s this) as [[props | props] |]; try reflexivity.
  destruct (Line.shorten props a b) as [shortened | e] eqn:E; [| reflexivity].
  exists props, shortened. auto.
Qed.

Lemma text_store (d : R) (this : Heap.Ref) (t : TextContent) (side : option LineSide)
    (given : option Text.Rest) (s : Heap.Store) :
  match Heap.text d this t side given s with
  | (Ok r, s') =>
      exists props label,
        nth_error s this = Some (Heap.LineElement props)
        /\ Line.text d props t side given = Ok label
        /\ r = List.length s
        /\ s' = s ++ [Heap.TextElement label]
  | (Err _, s') => s' = s
  end.
Proof.
  unfold Heap.text, Heap.bindM, Heap.lineProps, Heap.lift, Heap.new.
  destruct (nth_error s this) as [[props | props] |]; try reflexivity.
  destruct (Line.text d props t side given) as [label | e] eqn:E; [| reflexivity].
  exists props, label. auto.
Qed.

(** C8: [shorten] and [text] leave every instance as it was, the receiver
    among them, whether they return or throw; what they return is a
    reference to a new instance, a line built from the shortened
    properties or a text, which did not exist before the call. *)
Theorem shorten_text_do_not_mutate :
  (forall this startOffset endOffset s,
      let (outcome, s') := Heap.shorten this startOffset endOffset s in
      (forall r e, nth_error s r = Some e -> nth_error s' r = Some e)
      /\ (forall r, outcome = Ok r ->
            r <> this
            /\ nth_error s r = None
            /\ exists props shortened,
                nth_error s this = Some (Heap.LineElement props)
                /\ nth_error s' this = Some (Heap.LineElement props)
                /\ Line.shorten props startOffset endOffset = Ok shortened
                /\ nth_error s' r = Some (Heap.LineElement shortened))
      /\ (forall e, outcome = Err e -> s' = s))
  /\ (forall lineToTextDistance this t side props s,
      let (outcome, s') := Heap.text lineToTextDistance this t side props s in
      (forall r e, nth_error s r = Some e -> nth_error s' r = Some e)
      /\ (forall r, outcome = Ok r ->
            r <> this
            /\ nth_error s r = None
            /\ exists lineProps label,
                nth_error s this = Some (Heap.LineElement lineProps)
                /\ nth_error s' this = Some (Heap.LineElement lineProps)
                /\ Line.text lineToTextDistance lineProps t side props = Ok label
                /\ nth_error s' r = Some (Heap.TextElement label))
      /\ (forall e, outcome = Err e -> s' = s)).
Proof.
  split.
  - intros this a b s. pose proof (shorten_store this a b s) as St.
    destruct (Heap.shorten this a b s) as [[r | err] s'].
    + destruct St as (props & shortened & Hthis & Hs & -> & ->).
      split; [| split].
      * intros q e. apply nth_error_extended.
      * intros r' [= <-]. split; [| split].
        -- intros C. rewrite <- C, nth_error_fresh in Hthis. discriminate.
        -- apply nth_error_fresh.
        -- exists props, shortened.
           repeat split; auto using nth_error_extended, nth_error_new.
      * discriminate.
    + subst s'. split; [auto | split]; [discriminate | reflexivity].
  - intros d this t side given s. pose proof (text_store d this t side given s) as St.
    destruct (Heap.text d this t side given s) as [[r | err] s'].
    + destruct St as (props & label & Hthis & Hs & -> & ->).
      split; [| split].
      * intros q e. apply nth_error_extended.
      * intros r' [= <-]. split; [| split].
        -- intros C. rewrite <- C, nth_error_fresh in Hthis. discriminate.
        -- apply nth_error_fresh.
        -- exists props, label.
           repeat split; auto using nth_error_extended, nth_error_new.
      * discriminate.
    + subst s'. split; [auto | split]; [discriminate | reflexivity].
Qed.

Example shorten_in_a_store :
  Heap.shorten 0%nat 10 None [Heap.LineElement (plainLine (P 0 0) (P 100 0))]
  = (Ok 1%nat,
     [Heap.LineElement (plainLine (P 0 0) (P 100 0));
      Heap.LineElement (plainLine (P 10 0) (P 90 0))]).
Proof.
  unfold Heap.shorten, Heap.bindM, Heap.lineProps, Heap.lift, Heap.new.
  cbn [nth_error].
  assert (E : Line.shorten (plainLine (P 0 0) (P 100 0)) 10 None
              = Ok (plainLine (P 10 0) (P 90 0))).
  { rewrite shorten_ok by (cbn; intros [= E]; lra).
    unfold direction, Line.length, Line.vector; cbn [Line.start Line.end_ Line.rest plainLine].
    replace (Point.subtract (P 100 0) (P 0 0)) with (P 100 0)
      by (apply Point_eq; cbn; ring).
    rewrite length_horizontal by lra.
    unfold plainLine. do 2 f_equal; apply Point_eq; cbn; field. }
  rewrite E. reflexivity.
Qed.

(** ** Text layout estimation *)

Lemma longestLine_app (a b : list string) :
  longestLine (a ++ b) = Nat.max (longestLine a) (longestLine b).
Proof.
  unfold longestLine. induction a as [| s a IH]; cbn.
  - reflexivity.
  - rewrite IH. apply Nat.max_assoc.
Qed.

Lemma longestLine_cons (s : string) (a : list string) :
  longestLine (s :: a) = Nat.max (String.length s) (longestLine a).
Proof. reflexivity. Qed.

Section EstimateMonotone.

Variables (characterWidth lineHeight : R) (textMargin : Point).
Hypothesis characterWidth_nonneg : 0 <= characterWidth.
Hypothesis lineHeight_nonneg : 0 <= lineHeight.

Let estimate := estimateTextSizeWithMargin characterWidth lineHeight textMargin.

Lemma estimate_width_le (lines lines' : list string) :
  (longestLine lines <= longestLine lines')%nat ->
  x (estimate lines) <= x (estimate lines').
Proof.
  intros H. unfold estimate, estimateTextSizeWithMargin; cbn.
  apply le_INR in H. apply Rplus_le_compat_r. now apply Rmult_le_compat_r.
Qed.

Lemma estimate_height_le (lines lines' : list string) :
  (List.length lines <= List.length lines')%nat ->
  y (estimate lines) <= y (estimate lines').
Proof.
  intros H. unfold estimate, estimateTextSizeWithMargin; cbn.
  apply le_INR in H. apply Rplus_le_compat_r. now apply Rmult_le_compat_r.
Qed.

End EstimateMonotone.

(** C9: with a character width and a line height that are not negative,
    adding a line anywhere to a list of lines decreases neither the
    estimated height nor the estimated width, and replacing a line (the
    longest one or any other) by a line at least as long does not decrease
    the estimated width and leaves the height as it is; equal lists of
    lines give equal estimates. *)
Theorem estimateTextSizeWithMargin_monotone (characterWidth lineHeight : R) (textMargin : Point) :
  0 <= characterWidth -> 0 <= lineHeight ->
  let estimate := estimateTextSizeWithMargin characterWidth lineHeight textMargin in
  (forall before after line,
      y (estimate (before ++ after)) <= y (estimate (before ++ line :: after))
      /\ x (estimate (before ++ after)) <= x (estimate (before ++ line :: after)))
  /\ (forall before after line longer,
        (String.length line <= String.length longer)%nat ->
        x (estimate (before ++ line :: after)) <= x (estimate (before ++ longer :: after))
        /\ y (estimate (before ++ line :: after)) = y (estimate (before ++ longer :: after)))
  /\ (forall lines lines', lines = lines' -> estimate lines = estimate lines').
Proof.
  intros Hw Hh estimate. split; [| split].
  - intros before after line. split.
    + apply estimate_height_le; [exact Hh |].
      rewrite !length_app. cbn. lia.
    + apply estimate_width_le; [exact Hw |].
      rewrite !longestLine_app, longestLine_cons. lia.
  - intros before after line longer Hlen. split.
    + apply estimate_width_le; [exact Hw |].
      rewrite !longestLine_app, !longestLine_cons. lia.
    + unfold estimate, estimateTextSizeWithMargin; cbn.
      rewrite !length_app. reflexivity.
  - intros lines lines' ->. reflexivity.
Qed.

Lemma estimateTextSizeWithMargin_monotone_witness :
  let estimate := estimateTextSizeWithMargin 8 20 (P 12 8) in
  (forall before after line,
      y (estimate (before ++ after)) <= y (estimate (before ++ line :: after))
      /\ x (estimate (before ++ after)) <= x (estimate (before ++ line :: after)))
  /\ (forall before after line longer,
        (String.length line <= String.length longer)%nat ->
        x (estimate (before ++ line :: after)) <= x (estimate (before ++ longer :: after))
        /\ y (estimate (before ++ line :: after)) = y (estimate (before ++ longer :: after)))
  /\ (forall lines lines', lines = lines' -> estimate lines = estimate lines').
Proof.
  apply (estimateTextSizeWithMargin_monotone 8 20 (P 12 8)); lra.
Defined.

(** * Further properties of the code *)

(** ** [determineAlignment] *)

Lemma horizontal_center_iff (offset : Point) :
  horizontalAlignment (determineAlignment offset) = HCenter
  <-> Rabs (y offset) > 4 * Rabs (x offset).
Proof.
  split; [| apply horizontal_center].
  intros H. destruct (Rgt_dec (Rabs (y offset)) (4 * Rabs (x offset))) as [G | N]; [exact G |].
  rewrite (horizontal_sign _ N) in H. destruct (Rgt_dec (x offset) 0); discriminate.
Qed.

Lemma vertical_center_iff (offset : Point) :
  verticalAlignment (determineAlignment offset) = VCenter
  <-> Rabs (x offset) > 4 * Rabs (y offset).
Proof.
  split; [| apply vertical_center].
  intros H. destruct (Rgt_dec (Rabs (x offset)) (4 * Rabs (y offset))) as [G | N]; [exact G |].
  rewrite (vertical_sign _ N) in H. destruct (Rgt_dec (y offset) 0); discriminate.
Qed.

(** X1: no offset is centred on both axes: a label that is centred
    horizontally is aligned "top" or "bottom", and one that is centred
    vertically is aligned "left" or "right". *)
Theorem determineAlignment_not_both_center (offset : Point) :
  ~ (horizontalAlignment (determineAlignment offset) = HCenter
     /\ verticalAlignment (determineAlignment offset) = VCenter).
Proof.
  intros [H V]. apply horizontal_center_iff in H. apply vertical_center_iff in V.
  pose proof (Rabs_pos (x offset)). pose proof (Rabs_pos (y offset)). lra.
Qed.

Lemma determineAlignment_eq (a b : Point) :
  (Rabs (y a) > Rabs (x a) * 4 <-> Rabs (y b) > Rabs (x b) * 4) ->
  (x a > 0 <-> x b > 0) ->
  (Rabs (x a) > Rabs (y a) * 4 <-> Rabs (x b) > Rabs (y b) * 4) ->
  (y a > 0 <-> y b > 0) ->
  determineAlignment a = determineAlignment b.
Proof.
  intros Hc Hx Vc Vy. unfold determineAlignment; cbn [Point.absolute x y].
  f_equal.
  - destruct (Rgt_dec (Rabs (y a)) (Rabs (x a) * 4)), (Rgt_dec (Rabs (y b)) (Rabs (x b) * 4));
      try tauto.
    destruct (Rgt_dec (x a) 0), (Rgt_dec (x b) 0); tauto.
  - destruct (Rgt_dec (Rabs (x a)) (Rabs (y a) * 4)), (Rgt_dec (Rabs (x b)) (Rabs (y b) * 4));
      try tauto.
    destruct (Rgt_dec (y a) 0), (Rgt_dec (y b) 0); tauto.
Qed.

Lemma alignment_of_multiple (a b : Point) (k : R) :
  0 < k -> a = Point.multiply b k -> determineAlignment a = determineAlignment b.
Proof.
  intros K ->. apply determineAlignment_eq; cbn [Point.multiply x y];
    rewrite ?Rabs_mult, ?(Rabs_right k) by lra;
    pose proof (Rabs_pos (x b)); pose proof (Rabs_pos (y b));
    split; intros; nra.
Qed.

(** X2: the alignment depends on the direction of the offset only:
    stretching an offset by a positive factor does not change it. *)
Theorem determineAlignment_scale (offset : Point) (k : R) :
  0 < k ->
  determineAlignment (Point.multiply offset k) = determineAlignment offset.
Proof.
  intros K. now apply (alignment_of_multiple _ offset k).
Qed.

Lemma determineAlignment_scale_witness :
  determineAlignment (Point.multiply (P 3 (- (12))) 5) = determineAlignment (P 3 (- (12))).
Proof.
  apply (determineAlignment_scale (P 3 (- (12))) 5). lra.
Defined.

Lemma alignment_of_opposite (offset : Point) :
  offset <> P 0 0 ->
  determineAlignment (P (- x offset) (- y offset))
  = flipAlignment (determineAlignment offset).
Proof.
  intros N. destruct offset as [a b].
  assert (Nz : a <> 0 \/ b <> 0).
  { destruct (Req_dec a 0) as [-> | ]; [| now left].
    destruct (Req_dec b 0) as [-> | ]; [now contradiction N | now right]. }
  unfold determineAlignment, flipAlignment; cbn.
  rewrite !Rabs_Ropp.
  pose proof (Rabs_pos a) as Pa. pose proof (Rabs_pos b) as Pb.
  assert (Za : Rabs a = 0 -> a = 0).
  { intros Z. destruct (Req_dec a 0) as [E | E]; [exact E |].
    apply Rabs_no_R0 in E. contradiction. }
  assert (Zb : Rabs b = 0 -> b = 0).
  { intros Z. destruct (Req_dec b 0) as [E | E]; [exact E |].
    apply Rabs_no_R0 in E. contradiction. }
  f_equal.
  - destruct (Rgt_dec (Rabs b) (Rabs a * 4)) as [C | C]; [reflexivity |].
    destruct (Rgt_dec (- a) 0), (Rgt_dec a 0); try reflexivity; try lra.
    exfalso. assert (a = 0) by lra. subst a. rewrite Rabs_R0 in C.
    destruct Nz as [Nz | Nz]; [now apply Nz |].
    assert (Rabs b = 0) by lra. now apply Nz, Zb.
  - destruct (Rgt_dec (Rabs a) (Rabs b * 4)) as [C | C]; [reflexivity |].
    destruct (Rgt_dec (- b) 0), (Rgt_dec b 0); try reflexivity; try lra.
    exfalso. assert (b = 0) by lra. subst b. rewrite Rabs_R0 in C.
    destruct Nz as [Nz | Nz]; [| now apply Nz].
    assert (Rabs a = 0) by lra. now apply Nz, Za.
Qed.

(** X3: the opposite of an offset other than (0,0) gets the opposite
    alignment: "left" and "right" change places, "top" and "bottom" change
    places, and "center" stays. *)
Theorem determineAlignment_opposite (offset : Point) :
  offset <> P 0 0 ->
  determineAlignment (Point.multiply offset (- (1)))
  = flipAlignment (determineAlignment offset).
Proof.
  intros N. rewrite <- (alignment_of_opposite offset N).
  f_equal. apply Point_eq; cbn; ring.
Qed.

Lemma determineAlignment_opposite_witness :
  determineAlignment (Point.multiply (P 3 (- (12))) (- (1)))
  = flipAlignment (determineAlignment (P 3 (- (12)))).
Proof.
  apply (determineAlignment_opposite (P 3 (- (12)))).
  intros [= E]. lra.
Defined.

(** ** Shortening, again and to nothing *)

Lemma length_neq_0 (l : Line.Props) : Line.start l <> Line.end_ l -> Line.length l <> 0.
Proof. intros H. unfold Line.length. now rewrite vector_zero. Qed.

Lemma length_pos (l : Line.Props) : Line.start l <> Line.end_ l -> 0 < Line.length l.
Proof.
  intros H. pose proof (length_neq_0 l H). pose proof (length_nonneg (Line.vector l)).
  unfold Line.length in *. lra.
Qed.

Lemma vector_direction (l : Line.Props) :
  Line.start l <> Line.end_ l ->
  Line.vector l = Point.multiply (direction l) (Line.length l).
Proof.
  intros H. pose proof (length_neq_0 l H).
  unfold direction. apply Point_eq; cbn; now field.
Qed.

Lemma shortened_vector (l l' : Line.Props) (a : R) (b : option R) :
  Line.start l <> Line.end_ l ->
  Line.shorten l a b = Ok l' ->
  Line.vector l' = Point.multiply (direction l) (Line.length l - a - withDefault a b).
Proof.
  intros H E. rewrite shorten_ok in E by exact H. injection E as <-.
  pose proof (vector_direction l H) as V.
  unfold Line.vector in *; cbn [Line.start Line.end_].
  apply (f_equal x) in V as Vx. apply (f_equal y) in V. cbn in V, Vx.
  apply Point_eq; cbn; lra.
Qed.

Lemma along_direction_length (l l' : Line.Props) (k : R) :
  Line.start l <> Line.end_ l ->
  Line.vector l' = Point.multiply (direction l) k ->
  Line.length l' = Rabs k.
Proof.
  intros H V. unfold Line.length.
  rewrite V, length_multiply, direction_unit by exact H. ring.
Qed.

(** X4: a line with distinct endpoints, shortened by [startOffset] and
    [endOffset], has the length |length - startOffset - endOffset|. *)
Theorem shorten_length (l l' : Line.Props) (startOffset : R) (endOffset : option R) :
  Line.start l <> Line.end_ l ->
  Line.shorten l startOffset endOffset = Ok l' ->
  Line.length l'
  = Rabs (Line.length l - startOffset - withDefault startOffset endOffset).
Proof.
  intros H E. apply (along_direction_length l); [exact H |].
  now apply shortened_vector.
Qed.

Lemma shorten_length_witness :
  Line.length (plainLine (P 10 0) (P 90 0))
  = Rabs (Line.length (plainLine (P 0 0) (P 100 0)) - 10 - withDefault 10 None).
Proof.
  apply (shorten_length (plainLine (P 0 0) (P 100 0)) (plainLine (P 10 0) (P 90 0)) 10 None).
  - cbn. intros [= E]. lra.
  - rewrite shorten_ok by (cbn; intros [= E]; lra).
    unfold direction, Line.length, Line.vector; cbn [Line.start Line.end_ Line.rest plainLine].
    replace (Point.subtract (P 100 0) (P 0 0)) with (P 100 0)
      by (apply Point_eq; cbn; ring).
    rewrite length_horizontal by lra.
    unfold plainLine. do 2 f_equal; apply Point_eq; cbn; field.
Defined.

Lemma shortened_direction (l l' : Line.Props) (a : R) (b : option R) :
  Line.start l <> Line.end_ l ->
  a + withDefault a b < Line.length l ->
  Line.shorten l a b = Ok l' ->
  Line.start l' <> Line.end_ l' /\ direction l' = direction l.
Proof.
  intros H Lt E.
  pose proof (shortened_vector l l' a b H E) as V.
  pose proof (along_direction_length l l' _ H V) as Len.
  rewrite Rabs_right in Len by lra.
  assert (N : Line.start l' <> Line.end_ l').
  { intros C. apply vector_zero in C. fold (Line.length l') in C. lra. }
  split; [exact N |].
  pose proof (length_pos l H) as Pos.
  unfold direction at 1. rewrite V, Len.
  apply Point_eq; cbn; field; split; apply Rgt_not_eq; lra.
Qed.

(** X5: shortening twice is shortening once by the sums, as long as the
    first shortening leaves a line that still points the same way, that is,
    takes away less than the length of the line. *)
Theorem shorten_twice (l : Line.Props) (a c : R) (b d : option R) :
  Line.start l <> Line.end_ l ->
  a + withDefault a b < Line.length l ->
  (l' <- Line.shorten l a b ;; Line.shorten l' c d)
  = Line.shorten l (a + c) (Some (withDefault a b + withDefault c d)).
Proof.
  intros H Lt.
  destruct (Line.shorten l a b) as [l' | e] eqn:E;
    [| rewrite shorten_ok in E by exact H; discriminate].
  destruct (shortened_direction l l' a b H Lt E) as [N D].
  cbn [bind]. rewrite (shorten_ok l') by exact N. rewrite D.
  rewrite shorten_ok in E by exact H. injection E as <-.
  rewrite shorten_ok by exact H. cbn [Line.start Line.end_ Line.rest withDefault].
  do 2 f_equal; apply Point_eq; cbn; ring.
Qed.

Lemma shorten_twice_witness :
  (l' <- Line.shorten (plainLine (P 0 0) (P 100 0)) 10 None ;; Line.shorten l' 5 (Some 20))
  = Line.shorten (plainLine (P 0 0) (P 100 0)) (10 + 5)
      (Some (withDefault 10 None + withDefault 5 (Some 20))).
Proof.
  apply (shorten_twice (plainLine (P 0 0) (P 100 0)) 10 5 None (Some 20)).
  - cbn. intros [= E]. lra.
  - unfold Line.length, Line.vector; cbn [Line.start Line.end_ plainLine withDefault].
    replace (Point.subtract (P 100 0) (P 0 0)) with (P 100 0)
      by (apply Point_eq; cbn; ring).
    rewrite length_horizontal by lra. lra.
Defined.

(** X6: shortening a line by offsets that add up to its length leaves a
    line whose start equals its end, a line of length zero. *)
Theorem shorten_to_nothing (l : Line.Props) (startOffset : R) (endOffset : option R) :
  Line.start l <> Line.end_ l ->
  startOffset + withDefault startOffset endOffset = Line.length l ->
  exists l',
    Line.shorten l startOffset endOffset = Ok l'
    /\ Line.start l' = Line.end_ l'
    /\ Line.length l' = 0.
Proof.
  intros H Sum.
  destruct (Line.shorten l startOffset endOffset) as [l' | e] eqn:E;
    [| rewrite shorten_ok in E by exact H; discriminate].
  exists l'. split; [reflexivity |].
  assert (Z : Line.length l' = 0).
  { rewrite (along_direction_length l l' _ H (shortened_vector l l' _ _ H E)).
    replace (Line.length l - startOffset - withDefault startOffset endOffset) with 0 by lra.
    apply Rabs_R0. }
  split; [| exact Z]. now apply vector_zero.
Qed.

Lemma shorten_to_nothing_witness :
  exists l',
    Line.shorten (plainLine (P 0 0) (P 100 0)) 50 None = Ok l'
    /\ Line.start l' = Line.end_ l'
    /\ Line.length l' = 0.
Proof.
  apply (shorten_to_nothing (plainLine (P 0 0) (P 100 0)) 50 None).
  - cbn. intros [= E]. lra.
  - unfold Line.length, Line.vector; cbn [Line.start Line.end_ plainLine withDefault].
    replace (Point.subtract (P 100 0) (P 0 0)) with (P 100 0)
      by (apply Point_eq; cbn; ring).
    rewrite length_horizontal by lra. lra.
Defined.

(** ** Labels on both sides of a line *)

Lemma labelOffset_right (l : Line.Props) (d : R) :
  labelOffset l SideRight d
  = P (- x (labelOffset l SideLeft d)) (- y (labelOffset l SideLeft d)).
Proof. unfold labelOffset. apply Point_eq; cbn; ring. Qed.

Lemma labelOffset_nonzero (l : Line.Props) (side : LineSide) (d : R) :
  Line.start l <> Line.end_ l -> d <> 0 -> labelOffset l side d <> P 0 0.
Proof.
  intros H D C. apply length_zero in C.
  rewrite labelOffset_length in C by exact H.
  now apply (Rabs_no_R0 d).
Qed.

(** X7: the labels on the two sides of a line with distinct endpoints lie
    opposite each other across the middle of the line, and, unless the
    distance is zero, the alignments they get by default are opposite:
    "left" against "right", "top" against "bottom", "center" on both. *)
Theorem text_sides_mirror (lineToTextDistance : R) (l : Line.Props) (t : TextContent) :
  Line.start l <> Line.end_ l ->
  exists onLeft onRight,
    Line.text lineToTextDistance l t (Some SideLeft) None = Ok onLeft
    /\ Line.text lineToTextDistance l t (Some SideRight) None = Ok onRight
    /\ Point.add (Text.position onLeft) (Text.position onRight)
       = Point.multiply (midpoint l) 2
    /\ (lineToTextDistance <> 0 ->
        Text.horizontalAlignment (Text.rest onRight)
        = mapOptional flipHorizontal (Text.horizontalAlignment (Text.rest onLeft))
        /\ Text.verticalAlignment (Text.rest onRight)
           = mapOptional flipVertical (Text.verticalAlignment (Text.rest onLeft))).
Proof.
  intros H. do 2 eexists.
  split; [now apply text_ok | split; [now apply text_ok |]].
  cbn [Text.position Text.rest Text.horizontalAlignment Text.verticalAlignment
       withDefault Text.noRest spread mapOptional option_map].
  split.
  - rewrite labelOffset_right. apply Point_eq; cbn; ring.
  - intros D. rewrite labelOffset_right.
    rewrite alignment_of_opposite by now apply labelOffset_nonzero.
    split; reflexivity.
Qed.

Lemma text_sides_mirror_witness :
  exists onLeft onRight,
    Line.text 12 (plainLine (P 0 0) (P 100 0)) (OneLine "SMTP") (Some SideLeft) None
    = Ok onLeft
    /\ Line.text 12 (plainLine (P 0 0) (P 100 0)) (OneLine "SMTP") (Some SideRight) None
       = Ok onRight
    /\ Point.add (Text.position onLeft) (Text.position onRight)
       = Point.multiply (midpoint (plainLine (P 0 0) (P 100 0))) 2
    /\ (12 <> 0 ->
        Text.horizontalAlignment (Text.rest onRight)
        = mapOptional flipHorizontal (Text.horizontalAlignment (Text.rest onLeft))
        /\ Text.verticalAlignment (Text.rest onRight)
           = mapOptional flipVertical (Text.verticalAlignment (Text.rest onLeft))).
Proof.
  apply (text_sides_mirror 12 (plainLine (P 0 0) (P 100 0)) (OneLine "SMTP")).
  cbn. intros [= E]. lra.
Defined.

(** X8: for a positive distance, the alignment a label gets by default
    depends on the direction of the line and on the side only: it is the
    alignment of the line's vector turned to that side, whatever the
    length of the line and the distance of the label. *)
Theorem text_alignment_by_direction (lineToTextDistance : R) (l : Line.Props)
    (t : TextContent) (side : option LineSide) :
  Line.start l <> Line.end_ l ->
  0 < lineToTextDistance ->
  exists label,
    Line.text lineToTextDistance l t side None = Ok label
    /\ Text.horizontalAlignment (Text.rest label)
       = Present (Some (horizontalAlignment
                          (determineAlignment
                             (Point.rotate (Line.vector l) (withDefault SideLeft side)))))
    /\ Text.verticalAlignment (Text.rest label)
       = Present (Some (verticalAlignment
                          (determineAlignment
                             (Point.rotate (Line.vector l) (withDefault SideLeft side))))).
Proof.
  intros H D. eexists. split; [now apply text_ok |].
  cbn [Text.rest Text.horizontalAlignment Text.verticalAlignment
       withDefault Text.noRest spread].
  pose proof (length_pos l H) as Pos.
  rewrite (alignment_of_multiple
             (labelOffset l (withDefault SideLeft side) lineToTextDistance)
             (Point.rotate (Line.vector l) (withDefault SideLeft side))
             (lineToTextDistance / Line.length l)).
  - split; reflexivity.
  - now apply Rdiv_lt_0_compat.
  - unfold labelOffset, direction.
    destruct (withDefault SideLeft side); apply Point_eq; cbn; field; lra.
Qed.

Lemma text_alignment_by_direction_witness :
  exists label,
    Line.text 12 (plainLine (P 0 0) (P 100 0)) (OneLine "SMTP") None None = Ok label
    /\ Text.horizontalAlignment (Text.rest label)
       = Present (Some (horizontalAlignment
                          (determineAlignment
                             (Point.rotate (Line.vector (plainLine (P 0 0) (P 100 0)))
                                SideLeft))))
    /\ Text.verticalAlignment (Text.rest label)
       = Present (Some (verticalAlignment
                          (determineAlignment
                             (Point.rotate (Line.vector (plainLine (P 0 0) (P 100 0)))
                                SideLeft)))).
Proof.
  apply (text_alignment_by_direction 12 (plainLine (P 0 0) (P 100 0)) (OneLine "SMTP") None).
  - cbn. intros [= E]. lra.
  - lra.
Defined.

(** ** The envelope diagram *)

Section EnvelopeLayout.

Variable TextLine : Type.
Variables (strokeWidth : R) (textMargin doubleTextMargin : Point).
Variable calculateTextHeight : list TextLine -> R.
Variables (size : Point) (messageTitle envelopeTitle : TextLine).
Variable defaultMessage : list TextLine.
Variable connectBoxes :
  Rectangle.Props -> BoxSide -> Rectangle.Props -> BoxSide -> option Line.Rest -> Line.Props.
Variables (left right envelope : list TextLine) (message : option (list TextLine)).

Let elements : list (Envelope.Element TextLine) :=
  Envelope.printEnvelope TextLine strokeWidth textMargin doubleTextMargin
    calculateTextHeight size messageTitle envelopeTitle defaultMessage connectBoxes
    left right envelope message.

(** X9: whatever the texts and the constants, the diagram has four
    rectangles.  The box on the left, the envelope and the box on the right
    are centred on the horizontal axis, the outer boxes have the same size,
    the left box starts at 0, and the envelope is 40 away from either of
    them, so that the middles of the edges that the two connectors join are
    40 apart on the axis. *)
Theorem printEnvelope_row :
  exists leftBox envelopeBox messageBox rightBox,
    Envelope.rectangles TextLine elements = [leftBox; envelopeBox; messageBox; rightBox]
    /\ y (center leftBox) = 0
    /\ y (center envelopeBox) = 0
    /\ y (center rightBox) = 0
    /\ Rectangle.size rightBox = Rectangle.size leftBox
    /\ Envelope.leftEdge leftBox = 0
    /\ Envelope.leftEdge envelopeBox - Envelope.rightEdge leftBox = 40
    /\ Envelope.leftEdge rightBox - Envelope.rightEdge envelopeBox = 40
    /\ Box.anchor (boundingBox envelopeBox) SideLeftEdge
       = Point.add (Box.anchor (boundingBox leftBox) SideRightEdge) (P 40 0)
    /\ Box.anchor (boundingBox rightBox) SideLeftEdge
       = Point.add (Box.anchor (boundingBox envelopeBox) SideRightEdge) (P 40 0)
    /\ y (Box.anchor (boundingBox leftBox) SideRightEdge) = 0
    /\ y (Box.anchor (boundingBox envelopeBox) SideRightEdge) = 0.
Proof.
  do 4 eexists. split; [reflexivity |].
  unfold center, Box.center, Box.anchor, Envelope.leftEdge, Envelope.rightEdge, Envelope.gap.
  cbn.
  repeat split; try (apply Point_eq; cbn); unfold Envelope.gap; field.
Qed.

(** X10: the box of the message lies in the envelope with the margin
    [envelopeMargin], which is twice the stroke width, on its left, on its
    right and below it; above it the envelope keeps the height of its own
    lines, the text margin and twice that margin.  The message is 240 wide
    plus the text margin, whatever its lines. *)
Theorem printEnvelope_message_in_envelope :
  exists leftBox envelopeBox messageBox rightBox,
    Envelope.rectangles TextLine elements = [leftBox; envelopeBox; messageBox; rightBox]
    /\ Envelope.leftEdge messageBox - Envelope.leftEdge envelopeBox = 2 * strokeWidth
    /\ Envelope.rightEdge envelopeBox - Envelope.rightEdge messageBox = 2 * strokeWidth
    /\ Envelope.bottomEdge envelopeBox - Envelope.bottomEdge messageBox = 2 * strokeWidth
    /\ Envelope.topEdge messageBox - Envelope.topEdge envelopeBox
       = calculateTextHeight (envelopeTitle :: envelope) + y doubleTextMargin
         + 2 * (2 * strokeWidth)
    /\ x (Rectangle.size messageBox) = 240 + x doubleTextMargin
    /\ y (Rectangle.size messageBox)
       = calculateTextHeight (messageTitle :: withDefault defaultMessage message)
         + y doubleTextMargin.
Proof.
  do 4 eexists. split; [reflexivity |].
  unfold Envelope.leftEdge, Envelope.rightEdge, Envelope.topEdge, Envelope.bottomEdge.
  cbn. unfold Envelope.envelopeMargin, Envelope.messageWidth, Envelope.gap.
  repeat split; field.
Qed.

End EnvelopeLayout.

(** ** Equal values of entries *)

Lemma SFcompare_Eq_inv (a b : SpecFloat.spec_float) :
  SpecFloat.SFcompare a b = Some Eq ->
  bothZero a b \/ (a = b /\ a <> SpecFloat.S754_nan).
Proof.
  destruct a as [s1 | s1 | | s1 m1 e1], b as [s2 | s2 | | s2 m2 e2]; cbn; intros E;
    try discriminate E;
    try (destruct s1; discriminate E); try (destruct s2; discriminate E).
  - left. now exists s1, s2.
  - right. split; [| congruence]. destruct s1, s2; congruence.
  - right. split; [| congruence].
    destruct s1, s2; try discriminate E;
      destruct (Z.compare_spec e1 e2); try discriminate E; subst;
      fold (Pos.compare m1 m2) in E;
      destruct (Pos.compare_spec m1 m2); cbn in E; congruence.
Qed.

Lemma SFcompare_refl (a : SpecFloat.spec_float) :
  a <> SpecFloat.S754_nan -> SpecFloat.SFcompare a a = Some Eq.
Proof.
  destruct a as [s | s | | s m e]; cbn; try congruence.
  - destruct s; reflexivity.
  - intros _. rewrite Z.compare_refl. fold (Pos.compare m m). rewrite Pos.compare_refl.
    destruct s; reflexivity.
Qed.

Lemma SFeqb_sym_true (a b : SpecFloat.spec_float) :
  SpecFloat.SFeqb a b = true -> SpecFloat.SFeqb b a = true.
Proof.
  unfold SpecFloat.SFeqb.
  destruct (SpecFloat.SFcompare a b) as [[] |] eqn:E; try discriminate. intros _.
  apply SFcompare_Eq_inv in E as [(s1 & s2 & -> & ->) | [-> N]].
  - reflexivity.
  - now rewrite SFcompare_refl.
Qed.

Lemma SFeqb_trans (a b c : SpecFloat.spec_float) :
  SpecFloat.SFeqb a b = true -> SpecFloat.SFeqb b c = true -> SpecFloat.SFeqb a c = true.
Proof.
  unfold SpecFloat.SFeqb.
  destruct (SpecFloat.SFcompare a b) as [[] |] eqn:E1; try discriminate.
  destruct (SpecFloat.SFcompare b c) as [[] |] eqn:E2; try discriminate. intros _ _.
  apply SFcompare_Eq_inv in E1 as [(s1 & s2 & Ea & Eb) | [Eab N1]];
    apply SFcompare_Eq_inv in E2 as [(s3 & s4 & Eb' & Ec) | [Ebc N2]]; subst;
    try reflexivity.
  now rewrite SFcompare_refl.
Qed.

Lemma strictEquals_sym_true (a b : Entry.Value) :
  Entry.strictEquals a b = true -> Entry.strictEquals b a = true.
Proof.
  destruct a, b; cbn; try discriminate; try reflexivity.
  - now destruct b, b0.
  - rewrite !FloatAxioms.eqb_spec. apply SFeqb_sym_true.
  - now rewrite String.eqb_sym.
  - now rewrite Nat.eqb_sym.
Qed.

Lemma strictEquals_trans (a b c : Entry.Value) :
  Entry.strictEquals a b = true -> Entry.strictEquals b c = true ->
  Entry.strictEquals a c = true.
Proof.
  destruct a, b; cbn; try discriminate; destruct c; cbn; try discriminate; try reflexivity.
  - now destruct b, b0, b1.
  - rewrite !FloatAxioms.eqb_spec. apply SFeqb_trans.
  - rewrite !String.eqb_eq. congruence.
  - rewrite !Nat.eqb_eq. congruence.
Qed.

Lemma strictEquals_refl (a : Entry.Value) : Entry.strictEquals a a = negb (isNaN a).
Proof.
  destruct a; cbn; try reflexivity.
  - now destruct b.
  - unfold PrimFloat.is_nan. now rewrite negb_involutive.
  - apply String.eqb_refl.
  - apply Nat.eqb_refl.
Qed.

Lemma strictEquals_same_array (h : Entry.Heap) (a b : Entry.Value) :
  Entry.strictEquals a b = true -> Entry.asArray h a = Entry.asArray h b.
Proof.
  destruct a, b; cbn; try discriminate; try reflexivity.
  intros E. apply Nat.eqb_eq in E. now subst.
Qed.

Lemma sameItems_spec (a b : list Entry.Value) (i n : nat) :
  Entry.sameItems a b i n = true
  <-> forall j, (i <= j < i + n)%nat ->
        Entry.strictEquals (nth j a Entry.Undefined) (nth j b Entry.Undefined) = true.
Proof.
  revert i. induction n as [| n IH]; intros i; cbn.
  - split; [intros _ j Hj; lia | reflexivity].
  - destruct (Entry.strictEquals (nth i a Entry.Undefined) (nth i b Entry.Undefined)) eqn:E;
      cbn.
    + rewrite IH. split.
      * intros H j Hj. destruct (Nat.eq_dec j i) as [-> | N]; [exact E | apply H; lia].
      * intros H j Hj. apply H. lia.
    + split; [discriminate |]. intros H. rewrite <- E. apply H. lia.
Qed.

Lemma itemwise_nth (xs ys : list Entry.Value) :
  itemwise xs ys
  <-> List.length xs = List.length ys
      /\ forall j, (j < List.length xs)%nat ->
           Entry.strictEquals (nth j xs Entry.Undefined) (nth j ys Entry.Undefined) = true.
Proof.
  unfold itemwise. split.
  - induction 1 as [| u v xs ys E F [Len Items]]; cbn.
    + split; [reflexivity | intros j Hj; lia].
    + split; [now f_equal |]. intros [| j] Hj; [exact E | apply Items; lia].
  - revert ys. induction xs as [| u xs IH]; intros [| v ys] [Len Items]; try discriminate Len.
    + constructor.
    + constructor.
      * apply (Items 0%nat). cbn. lia.
      * apply IH. split; [now injection Len |].
        intros j Hj. apply (Items (S j)). cbn. lia.
Qed.

Lemma equalValues_arrays (h : Entry.Heap) (a b : Entry.Value) (xs ys : list Entry.Value) :
  Entry.asArray h a = Some xs -> Entry.asArray h b = Some ys ->
  Entry.strictEquals a b = false ->
  (Entry.equalValues h a b = true <-> itemwise xs ys).
Proof.
  intros A B S. unfold Entry.equalValues. rewrite S, A, B, itemwise_nth.
  destruct (Nat.eqb (List.length xs) (List.length ys)) eqn:L; cbn.
  - apply Nat.eqb_eq in L. rewrite sameItems_spec. split.
    + intros H. split; [exact L |]. intros j Hj. apply H. lia.
    + intros [_ H] j Hj. apply H. lia.
  - apply Nat.eqb_neq in L. split; [discriminate | intros [Len _]; contradiction].
Qed.

Lemma itemwise_refl_same (h : Entry.Heap) (a b : Entry.Value) (xs ys : list Entry.Value) :
  Entry.asArray h a = Some xs -> Entry.asArray h b = Some ys ->
  Entry.strictEquals a b = true -> xs = ys.
Proof.
  intros A B S. rewrite (strictEquals_same_array h a b S) in A. congruence.
Qed.

(** X11: [equalValues] holds exactly when the two values are strictly
    equal, or when both are arrays of the same length whose items are
    strictly equal position by position. *)
Theorem equalValues_true_iff (h : Entry.Heap) (a b : Entry.Value) :
  Entry.equalValues h a b = true
  <-> Entry.strictEquals a b = true
      \/ exists xs ys,
           Entry.asArray h a = Some xs /\ Entry.asArray h b = Some ys
           /\ List.length xs = List.length ys
           /\ forall i, (i < List.length xs)%nat ->
                Entry.strictEquals (nth i xs Entry.Undefined) (nth i ys Entry.Undefined)
                = true.
Proof.
  destruct (Entry.strictEquals a b) eqn:S.
  - unfold Entry.equalValues. rewrite S. tauto.
  - split.
    + intros E. right. unfold Entry.equalValues in E. rewrite S in E.
      destruct (Entry.asArray h a) as [xs |] eqn:A; [| discriminate].
      destruct (Entry.asArray h b) as [ys |] eqn:B; [| discriminate].
      exists xs, ys. repeat split; try apply itemwise_nth;
        apply (equalValues_arrays h a b xs ys A B S);
        unfold Entry.equalValues; now rewrite S, A, B.
    + intros [C | (xs & ys & A & B & Len & Items)]; [discriminate |].
      apply (equalValues_arrays h a b xs ys A B S). apply itemwise_nth. now split.
Qed.

Lemma itemwise_sym (xs ys : list Entry.Value) : itemwise xs ys -> itemwise ys xs.
Proof.
  unfold itemwise. induction 1; constructor; [now apply strictEquals_sym_true | assumption].
Qed.

Lemma itemwise_trans (xs ys zs : list Entry.Value) :
  itemwise xs ys -> itemwise ys zs -> itemwise xs zs.
Proof.
  unfold itemwise. intros H. revert zs.
  induction H as [| u v xs ys E F IH]; intros zs G; inversion G; subst; constructor.
  - now apply (strictEquals_trans u v).
  - now apply IH.
Qed.

(** The relation that [equalValues] decides, with the strict equality of
    arrays put first. *)
Lemma equalValues_cases (h : Entry.Heap) (a b : Entry.Value) :
  Entry.equalValues h a b = true
  <-> Entry.strictEquals a b = true
      \/ exists xs ys,
           Entry.asArray h a = Some xs /\ Entry.asArray h b = Some ys /\ itemwise xs ys.
Proof.
  destruct (Entry.strictEquals a b) eqn:S.
  - unfold Entry.equalValues. rewrite S. tauto.
  - split.
    + intros E. right. pose proof E as E'. unfold Entry.equalValues in E'. rewrite S in E'.
      destruct (Entry.asArray h a) as [xs |] eqn:A; [| discriminate].
      destruct (Entry.asArray h b) as [ys |] eqn:B; [| discriminate].
      exists xs, ys. repeat split. now apply (equalValues_arrays h a b xs ys A B S).
    + intros [C | (xs & ys & A & B & I)]; [discriminate |].
      now apply (equalValues_arrays h a b xs ys A B S).
Qed.

Lemma equalValues_sym_true (h : Entry.Heap) (a b : Entry.Value) :
  Entry.equalValues h a b = true -> Entry.equalValues h b a = true.
Proof.
  rewrite !equalValues_cases. intros [S | (xs & ys & A & B & I)].
  - left. now apply strictEquals_sym_true.
  - right. exists ys, xs. repeat split; try assumption. now apply itemwise_sym.
Qed.

(** X12: [equalValues] does not depend on the order of its arguments. *)
Theorem equalValues_symmetric (h : Entry.Heap) (a b : Entry.Value) :
  Entry.equalValues h a b = Entry.equalValues h b a.
Proof.
  destruct (Entry.equalValues h a b) eqn:E1, (Entry.equalValues h b a) eqn:E2;
    try reflexivity.
  - apply equalValues_sym_true in E1. congruence.
  - apply equalValues_sym_true in E2. congruence.
Qed.

(** X13: [equalValues] is transitive: values equal to a common value are
    equal to each other. *)
Theorem equalValues_transitive (h : Entry.Heap) (a b c : Entry.Value) :
  Entry.equalValues h a b = true ->
  Entry.equalValues h b c = true ->
  Entry.equalValues h a c = true.
Proof.
  rewrite !equalValues_cases.
  intros [S1 | (xs & ys & A & B & I1)] [S2 | (ys' & zs & B' & C & I2)].
  - left. now apply (strictEquals_trans a b c).
  - right. exists ys', zs. rewrite (strictEquals_same_array h a b S1). auto.
  - right. exists xs, ys. rewrite <- (strictEquals_same_array h b c S2). auto.
  - right. exists xs, zs. repeat split; try assumption.
    rewrite B in B'. injection B' as <-. now apply (itemwise_trans xs ys zs).
Qed.

Lemma equalValues_transitive_witness :
  Entry.equalValues [Entry.ArrayObject [Entry.StringValue "a"];
                     Entry.ArrayObject [Entry.StringValue "a"];
                     Entry.ArrayObject [Entry.StringValue "a"]]
    (Entry.Reference 0) (Entry.Reference 2) = true.
Proof.
  apply (equalValues_transitive _ (Entry.Reference 0) (Entry.Reference 1) (Entry.Reference 2));
    reflexivity.
Defined.

(** X14: every value equals itself, except the number NaN; an array equals
    itself also when it contains NaN, and a copy of such an array does not
    equal it. *)
Theorem equalValues_reflexive_but_NaN :
  (forall h a, Entry.equalValues h a a = negb (isNaN a))
  /\ (forall h a b xs,
        Entry.asArray h a = Some xs -> Entry.asArray h b = Some xs ->
        Entry.strictEquals a b = false ->
        Entry.equalValues h a b = negb (existsb isNaN xs)).
Proof.
  split.
  - intros h a. unfold Entry.equalValues. rewrite strictEquals_refl.
    destruct a; cbn; try reflexivity.
    destruct (PrimFloat.is_nan n); reflexivity.
  - intros h a b xs A B S.
    destruct (existsb isNaN xs) eqn:N; cbn.
    + destruct (Entry.equalValues h a b) eqn:E; [| reflexivity].
      apply (equalValues_arrays h a b xs xs A B S) in E.
      apply existsb_exists in N as (v & In & Nv). exfalso.
      clear A B. induction xs as [| u xs IH]; [contradiction |].
      inversion E; subst. destruct In as [-> | In]; [| now apply IH].
      rewrite strictEquals_refl, Nv in H2. discriminate.
    + apply (equalValues_arrays h a b xs xs A B S).
      clear A B. induction xs as [| u xs IH]; [constructor |].
      cbn in N. apply orb_false_iff in N as [Nu Nxs].
      constructor; [| now apply IH]. now rewrite strictEquals_refl, Nu.
Qed.

Lemma strings_itemwise (xs ys : list string) :
  itemwise (map Entry.StringValue xs) (map Entry.StringValue ys) <-> xs = ys.
Proof.
  unfold itemwise. split.
  - revert ys. induction xs as [| s xs IH]; intros [| t ys] H; inversion H; subst.
    + reflexivity.
    + cbn in H3. apply String.eqb_eq in H3. f_equal; [exact H3 | now apply IH].
  - intros <-. induction xs as [| s xs IH]; constructor; [apply String.eqb_refl | exact IH].
Qed.

(** X15: on arrays of strings, the values that an entry of type
    [string[]] has, [equalValues] is the equality of their contents: two
    arrays are equal exactly when they hold the same strings in the same
    order, whether or not they are the same object. *)
Theorem equalValues_string_arrays (h : Entry.Heap) (a b : Entry.Value) (xs ys : list string) :
  Entry.asArray h a = Some (map Entry.StringValue xs) ->
  Entry.asArray h b = Some (map Entry.StringValue ys) ->
  (Entry.equalValues h a b = true <-> xs = ys).
Proof.
  intros A B. rewrite <- strings_itemwise.
  destruct (Entry.strictEquals a b) eqn:S.
  - unfold Entry.equalValues. rewrite S.
    rewrite (itemwise_refl_same h a b _ _ A B S).
    split; [intros _ | reflexivity].
    now apply strings_itemwise.
  - now apply equalValues_arrays.
Qed.

Lemma equalValues_string_arrays_witness :
  Entry.equalValues [Entry.ArrayObject [Entry.StringValue "a"; Entry.StringValue "b"];
                     Entry.ArrayObject [Entry.StringValue "a"; Entry.StringValue "b"]]
    (Entry.Reference 0) (Entry.Reference 1) = true
  <-> ["a"; "b"]%string = ["a"; "b"]%string.
Proof.
  apply (equalValues_string_arrays _ (Entry.Reference 0) (Entry.Reference 1)
           ["a"; "b"]%string ["a"; "b"]%string); reflexivity.
Defined.

(** X16: the comparison is shallow: two different arrays that hold
    different objects at some position are not equal, whatever those
    objects contain. *)
Theorem equalValues_shallow (h : Entry.Heap) (a b : Entry.Value) (xs ys : list Entry.Value)
    (i r s : nat) :
  Entry.asArray h a = Some xs ->
  Entry.asArray h b = Some ys ->
  nth_error xs i = Some (Entry.Reference r) ->
  nth_error ys i = Some (Entry.Reference s) ->
  r <> s ->
  a <> b ->
  Entry.equalValues h a b = false.
Proof.
  intros A B X Y N D.
  assert (S : Entry.strictEquals a b = false).
  { destruct a, b; try discriminate A; try discriminate B. cbn.
    apply Nat.eqb_neq. congruence. }
  destruct (Entry.equalValues h a b) eqn:E; [| reflexivity].
  apply (equalValues_arrays h a b xs ys A B S), itemwise_nth in E as [Len Items].
  assert (Hi : (i < List.length xs)%nat) by (apply nth_error_Some; congruence).
  specialize (Items i Hi).
  rewrite (nth_error_nth xs i _ X), (nth_error_nth ys i _ Y) in Items. cbn in Items.
  apply Nat.eqb_eq in Items. contradiction.
Qed.

Lemma equalValues_shallow_witness :
  Entry.equalValues
    [Entry.ArrayObject [Entry.Reference 2]; Entry.ArrayObject [Entry.Reference 3];
     Entry.ArrayObject [Entry.StringValue "a"]; Entry.ArrayObject [Entry.StringValue "a"]]
    (Entry.Reference 0) (Entry.Reference 1) = false.
Proof.
  apply (equalValues_shallow _ (Entry.Reference 0) (Entry.Reference 1)
           [Entry.Reference 2] [Entry.Reference 3] 0 2 3); try reflexivity.
  - intros E. discriminate E.
  - intros E. discriminate E.
Defined.

(** ** Pruning the links *)

Lemma kept_from (A : Type) (positions : list nat) (l : list A) (k : nat) :
  (forall p, In p positions -> (p < k)%nat) ->
  map snd
    (filter (fun entry => negb (existsb (Nat.eqb (fst entry)) positions))
       (combine (seq k (List.length l)) l))
  = l.
Proof.
  intros Below. revert k Below. induction l as [| a l IH]; intros k Below; cbn.
  - reflexivity.
  - replace (existsb (Nat.eqb k) positions) with false.
    + cbn. f_equal. apply IH. intros p Hp. specialize (Below p Hp). lia.
    + symmetry. apply not_true_is_false. intros E.
      apply existsb_exists in E as (p & Hp & E). apply Nat.eqb_eq in E. subst p.
      specialize (Below k Hp). lia.
Qed.

(** X17: the four [splice] statements, which run from the highest
    position to the lowest, take out of the array of links exactly the
    links that were at the positions 0, 2, 4 and 7 when they started, and
    keep the others in their order, whatever the length of the array; an
    array of at least eight links loses four. *)
Theorem pruneLinks_positions (A : Type) (links : list A) :
  Relaying.pruneLinks links = withoutPositions [0; 2; 4; 7]%nat links
  /\ ((8 <= List.length links)%nat ->
      List.length (Relaying.pruneLinks links) = (List.length links - 4)%nat).
Proof.
  destruct links as [| a0 [| a1 [| a2 [| a3 [| a4 [| a5 [| a6 [| a7 rest]]]]]]]];
    try (split; [reflexivity | cbn; lia]).
  split.
  - unfold Relaying.pruneLinks, Relaying.splice1, withoutPositions. cbn.
    do 4 f_equal. symmetry. apply (kept_from A [0; 2; 4; 7]%nat rest 8).
    intros p [<- | [<- | [<- | [<- | []]]]]; lia.
  - intros _. unfold Relaying.pruneLinks, Relaying.splice1. cbn. lia.
Qed.
